(** * Verification of the OCR PDF converters

    A shallow embedding of the numeric and list-processing parts of
    [PDFc_SearchableandEditable.py] and [PDFc_Searchable_only.py]:
    - the word-box text-layer placement of [create_editable_pdf];
    - the page loop of [create_editable_pdf];
    - the paragraph reflow of [create_text_only_pdf_clean];
    - the chunk loop of [process_in_chunks], its pages and numbering;
    - the two variants of [extract_text_from_page];
    - [clean_text] and the status of [create_searchable_pdf];
    - the file filters and output names of the [__main__] blocks;
    - the page loops of [create_pdf_with_reportlab],
      [create_text_only_pdf_clean] and [extract_to_text_file];
    - the word wrap and layout of [create_image_with_selectable_text],
      [create_pdf_with_reportlab] and [create_text_only_pdf_clean].

    Python floats are modelled by exact rationals [Q]; pixel values
    reported by the OCR engine are integers [Z]; strings are ASCII
    [String.string]. *)

From Stdlib Require Import QArith Qabs ZArith List String Ascii Bool Lia Lqa.
Import ListNotations.
Open Scope string_scope.

(** ** Python helpers *)

Module Py.
Local Open Scope nat_scope.

(** [str.isspace] restricted to ASCII: TAB, LF, VT, FF, CR, the four
    information separators 0x1c..0x1f and SPACE. *)
Definition is_space (c : ascii) : bool :=
  let n := nat_of_ascii c in
  ((9 <=? n) && (n <=? 13)) || ((28 <=? n) && (n <=? 32)).

Fixpoint lstrip (s : string) : string :=
  match s with
  | EmptyString => EmptyString
  | String c rest => if is_space c then lstrip rest else s
  end.

Definition rev_string (s : string) : string :=
  string_of_list_ascii (rev (list_ascii_of_string s)).

(** [str.strip()]: leading and trailing whitespace removed. *)
Definition strip (s : string) : string :=
  rev_string (lstrip (rev_string (lstrip s))).

(** [' '.join(xs)] *)
Fixpoint join_space (xs : list string) : string :=
  match xs with
  | [] => ""
  | [x] => x
  | x :: rest => x ++ " " ++ join_space rest
  end.

(** Last character of a string, if any. *)
Fixpoint last_char (s : string) : option ascii :=
  match s with
  | EmptyString => None
  | String c EmptyString => Some c
  | String _ rest => last_char rest
  end.

Definition is_lower (c : ascii) : bool :=
  let n := nat_of_ascii c in (97 <=? n) && (n <=? 122).
Definition is_upper_char (c : ascii) : bool :=
  let n := nat_of_ascii c in (65 <=? n) && (n <=? 90).

(** [str.isupper()]: at least one cased character and no lower-case one. *)
Definition isupper (s : string) : bool :=
  let cs := list_ascii_of_string s in
  existsb is_upper_char cs && negb (existsb is_lower cs).

(** [a < b] on floats, as a boolean. *)
Definition Qltb (a b : Q) : bool := negb (Qle_bool b a).

(** Python's [min(a, b)] and [max(a, b)]: the first argument unless the
    second is strictly smaller (resp. larger). *)
Definition py_min (a b : Q) : Q := if Qltb b a then b else a.
Definition py_max (a b : Q) : Q := if Qltb a b then b else a.

End Py.

(** ** Text-layer placement of [create_editable_pdf] *)

Module Placement.
Import Py.

(** One row of [pytesseract.image_to_data(..., output_type=DICT)]: the
    dictionary of parallel lists [boxes['text'][i]], [boxes['conf'][i]],
    [boxes['left'][i]], ... is modelled as a list of rows. *)
Record word_box := {
  wb_text : string;
  wb_conf : Q;
  wb_left : Z;
  wb_top : Z;
  wb_width : Z;
  wb_height : Z
}.

(** One [c.drawString(x, y, word)] issued after [c.setFont("Helvetica",
    font_size)]. *)
Record draw_op := {
  op_x : Q;
  op_y : Q;
  op_font : Q;
  op_text : string
}.

(** [c.stringWidth(" ", "Helvetica", font_size)]: ReportLab's metric of
    the Helvetica space glyph is 278/1000 em. *)
Definition space_width (font_size : Q) : Q := (278 # 1000) * font_size.

Section WithDpi.
Variable dpi : Z.
Variable page_height : Q.

(** [v * 72.0 / dpi] *)
Definition to_pt (v : Z) : Q := inject_Z v * 72 / inject_Z dpi.

(** [page_height - (boxes['top'][i] + boxes['height'][i]) * 72.0 / dpi] *)
Definition y_of (b : word_box) : Q :=
  page_height - inject_Z (wb_top b + wb_height b) * 72 / inject_Z dpi.

(** [font_size = boxes['height'][i] * 72.0 / dpi;
     font_size = max(min(font_size, 14), 8)] *)
Definition font_size_of (b : word_box) : Q :=
  py_max (py_min (to_pt (wb_height b)) 14) 8.

(** [abs(y - prev_y) < font_size/2] *)
Definition same_line (prev b : word_box) : bool :=
  Qltb (Qabs (y_of b - y_of prev)) (font_size_of b / 2).

(** [(x - (prev_x + prev_width)) < space_width * 3] *)
Definition close_gap (prev b : word_box) : bool :=
  Qltb (to_pt (wb_left b) - (to_pt (wb_left prev) + to_pt (wb_width prev)))
       (space_width (font_size_of b) * 3).

(** The x coordinate after the [if i > 0:] block. *)
Definition x_of (prev : option word_box) (b : word_box) : Q :=
  let x := to_pt (wb_left b) in
  match prev with
  | Some p =>
      if same_line p b && close_gap p b
      then x + space_width (font_size_of b) else x
  | None => x
  end.

(** The row compared with row [i] under [if i > 0:]: [boxes[i-1]], the
    raw previous row, whether or not it was drawn. *)
Definition prev_box (boxes : list word_box) (i : nat) : option word_box :=
  match i with
  | O => None
  | S j => nth_error boxes j
  end.

(** Body of [for i in range(len(boxes['text']))]: the drawing operations
    issued for index [i]. *)
Definition word_ops (boxes : list word_box) (i : nat) : list draw_op :=
  match nth_error boxes i with
  | None => []
  | Some b =>
      if Qltb 0 (wb_conf b) then
        let word := strip (wb_text b) in
        if String.eqb word "" then []
        else
          [ {| op_x := x_of (prev_box boxes i) b; op_y := y_of b;
               op_font := font_size_of b; op_text := word |} ]
      else []
  end.

(** The whole loop. *)
Definition place_words (boxes : list word_box) : list draw_op :=
  List.concat (map (word_ops boxes) (seq 0 (List.length boxes))).

End WithDpi.

End Placement.

(** ** [extract_text_from_page] *)

Module Extract.
Import Py Placement.

(** The Python exceptions the rasterizer and the OCR engine can raise.
    [KeyboardInterrupt] and [SystemExit] derive from [BaseException]
    only; the others derive from [Exception]. *)
Inductive py_exc :=
| ValueError | RuntimeError | TesseractError | MemoryError | OSError
| KeyboardInterrupt | SystemExit.

(** Does [except Exception] catch it? *)
Definition is_Exception (e : py_exc) : bool :=
  match e with
  | KeyboardInterrupt | SystemExit => false
  | _ => true
  end.

(** A computation of the interpreter: a value, or a raised exception. *)
Inductive result (A : Type) :=
| Ok (a : A)
| Raise (e : py_exc).
Arguments Ok {A} a.
Arguments Raise {A} e.

(** A PIL image; only its size matters to the callers. *)
Record image := { img_width : Z; img_height : Z }.

(** What the body of the [try] block meets when it calls PyMuPDF and
    pytesseract on a page: either one of the calls raises, or rendering
    succeeds with an image, [image_to_string] returns a text and
    [image_to_data] returns the word rows. *)
Inductive ocr_run :=
| OcrRaises (e : py_exc)
| OcrReturns (img : image) (text : string) (boxes : list word_box).

(** [PDFc_SearchableandEditable.extract_text_from_page]:
    [return text.strip(), image, boxes] in the [try] block,
    [return "", None, None] in [except Exception]. *)
Definition extract_text_from_page_boxes (r : ocr_run)
  : result (string * option image * option (list word_box)) :=
  match r with
  | OcrRaises e => if is_Exception e then Ok ("", None, None) else Raise e
  | OcrReturns img text boxes => Ok (strip text, Some img, Some boxes)
  end.

(** [PDFc_Searchable_only.extract_text_from_page]:
    [return text.strip()] in the [try] block, [return ""] in
    [except Exception]. *)
Definition extract_text_from_page_plain (r : ocr_run) : result string :=
  match r with
  | OcrRaises e => if is_Exception e then Ok "" else Raise e
  | OcrReturns _ text _ => Ok (strip text)
  end.

End Extract.

(** ** The page loop of [create_editable_pdf] *)

Module Editable.
Import Py Placement Extract.

(** A page of the merged output: the per-page canvas of size
    [(page_width, page_height)], its background image and the words
    drawn on it. *)
Record out_page := {
  pg_width : Q;
  pg_height : Q;
  pg_ops : list draw_op
}.

(** The body of [if text and image and boxes:] for one page. *)
Definition compose_page (dpi : Z) (img : image) (boxes : list word_box)
  : out_page :=
  let page_width := inject_Z (img_width img) * 72 / inject_Z dpi in
  let page_height := inject_Z (img_height img) * 72 / inject_Z dpi in
  {| pg_width := page_width; pg_height := page_height;
     pg_ops := place_words dpi page_height boxes |}.

(** [for page_num in range(total_pages)]: the list [page_paths] of
    composed pages. A page is composed only when [text and image and
    boxes] holds; otherwise only ["○"] is printed. A non-[Exception]
    exception escapes every handler. *)
Fixpoint page_loop (dpi : Z) (runs : list ocr_run) : result (list out_page) :=
  match runs with
  | [] => Ok []
  | r :: rest =>
      match extract_text_from_page_boxes r with
      | Raise e => Raise e
      | Ok (text, image, boxes) =>
          let this :=
            if String.eqb text "" then []
            else match image, boxes with
                 | Some img, Some bs => [compose_page dpi img bs]
                 | _, _ => []
                 end in
          match page_loop dpi rest with
          | Raise e => Raise e
          | Ok pages => Ok (this ++ pages)%list
          end
      end
  end.

(** [create_editable_pdf]: [Some pages] when the merged file is saved
    and [True] returned, [None] when [successful_pages > 0] fails and
    [False] is returned without writing an output file. Merging a
    temporary page into [output_doc] is taken to succeed. *)
Definition create_editable_pdf (dpi : Z) (runs : list ocr_run)
  : result (option (list out_page)) :=
  match page_loop dpi runs with
  | Raise e => Raise e
  | Ok pages =>
      let successful_pages := List.length pages in
      Ok (if Nat.ltb 0 successful_pages then Some pages else None)
  end.

End Editable.

(** ** Paragraph reflow of [create_text_only_pdf_clean] *)

Module Reflow.
Import Py.

(** The loop state: [paragraphs] and [current_para]. *)
Record state := { paragraphs : list string; current_para : list string }.

Definition init : state := {| paragraphs := []; current_para := [] |}.

(** [line.endswith(('.', '!', '?', ':', ';'))] *)
Definition ends_sentence (line : string) : bool :=
  match last_char line with
  | Some c =>
      existsb (fun d => Ascii.eqb c d) ["."; "!"; "?"; ":"; ";"]%char
  | None => false
  end.

(** One iteration of [for line in text.split('\n')]. *)
Definition reflow_step (st : state) (raw : string) : state :=
  let line := strip raw in
  let paras := paragraphs st in
  let cur := current_para st in
  if String.eqb line "" then
    match cur with
    | [] => st
    | _ :: _ => {| paragraphs := (paras ++ [join_space cur])%list; current_para := [] |}
    end
  else if ends_sentence line || Nat.ltb (String.length line) 40 then
    {| paragraphs := (paras ++ [join_space (cur ++ [line])%list])%list; current_para := [] |}
  else
    {| paragraphs := paras; current_para := (cur ++ [line])%list |}.

Definition reflow_loop (lines : list string) : state :=
  fold_left reflow_step lines init.

(** The loop followed by [if current_para: paragraphs.append(...)]. *)
Definition reflow_lines (lines : list string) : list string :=
  let st := reflow_loop lines in
  match current_para st with
  | [] => paragraphs st
  | cur => (paragraphs st ++ [join_space cur])%list
  end.

(** [is_header = len(paragraph) < 60 and paragraph.isupper()] *)
Definition is_header (paragraph : string) : bool :=
  Nat.ltb (String.length paragraph) 60 && isupper paragraph.

End Reflow.

(** ** [process_in_chunks] *)

Module Chunks.

(** [for start_page in range(start, total_pages, pages_per_chunk):
       end_page = min(start_page + pages_per_chunk, total_pages)],
    one [(start_page, end_page)] pair per iteration; [fuel] bounds the
    number of iterations. *)
Fixpoint chunk_ranges (fuel start total_pages pages_per_chunk : nat)
  : list (nat * nat) :=
  match fuel with
  | O => []
  | S f =>
      if Nat.ltb start total_pages then
        (start, Nat.min (start + pages_per_chunk) total_pages)
          :: chunk_ranges f (start + pages_per_chunk) total_pages pages_per_chunk
      else []
  end.

(** The chunks of a document; with [pages_per_chunk >= 1] the range has
    at most [total_pages] elements. *)
Definition chunks (total_pages pages_per_chunk : nat) : list (nat * nat) :=
  chunk_ranges total_pages 0 total_pages pages_per_chunk.

(** Pages of each chunk: [to_page=end_page - 1] inclusive from
    [from_page=start_page]. *)
Definition chunk_sizes (total_pages pages_per_chunk : nat) : list nat :=
  map (fun '(s, e) => (e - s)%nat) (chunks total_pages pages_per_chunk).

End Chunks.

(** ** More of Python's [str] *)

Module PyStr.
Import Py.

(** [s.startswith(p)] *)
Definition startswith (p s : string) : bool := String.prefix p s.

(** [s.endswith(p)] *)
Definition endswith (p s : string) : bool :=
  String.prefix (rev_string p) (rev_string s).

Definition lower_char (c : ascii) : ascii :=
  if is_upper_char c then ascii_of_nat (nat_of_ascii c + 32) else c.

(** [s.lower()] *)
Fixpoint lower (s : string) : string :=
  match s with
  | EmptyString => EmptyString
  | String c rest => String (lower_char c) (lower rest)
  end.

(** [p in s] *)
Fixpoint contains (p s : string) : bool :=
  String.prefix p s ||
  match s with
  | EmptyString => false
  | String _ rest => contains p rest
  end.

(** The scan of [s.replace(pat, rep)] for a non-empty [pat]: left to
    right, non-overlapping; [skip] characters of a match just replaced
    are still to be passed over. *)
Fixpoint replace_aux (skip : nat) (pat rep s : string) : string :=
  match s with
  | EmptyString => EmptyString
  | String c rest =>
      match skip with
      | S k => replace_aux k pat rep rest
      | O =>
          if String.prefix pat s
          then rep ++ replace_aux (String.length pat - 1) pat rep rest
          else String c (replace_aux 0 pat rep rest)
      end
  end.

(** [s.replace(pat, rep)], [pat] non-empty. *)
Definition replace (pat rep s : string) : string := replace_aux 0 pat rep s.


End PyStr.

(** ** [create_searchable_pdf] (PDFc_Searchable_only.py) *)

Module Searchable.
Import Py PyStr.

(** [clean_text = text.replace('\n\n', '\n').strip()] *)
Definition clean_text (text : string) : string :=
  strip (replace (String "010" (String "010" "")) (String "010" "") text).

(** The status symbol printed for a page. *)
Inductive status := Inserted | InsertFailed | NoTextFound | EmptyPage.

(** The per-page branch: [if text:] / [if clean_text:] / the
    [try: page.insert_textbox(...)] whose bare [except] prints a
    warning; [insert_ok] says whether [insert_textbox] returned. *)
Definition page_status (text : string) (insert_ok : bool) : status :=
  if String.eqb text "" then EmptyPage
  else if String.eqb (clean_text text) "" then NoTextFound
  else if insert_ok then Inserted else InsertFailed.

End Searchable.

(** ** File selection and output names of the [__main__] blocks *)

Module Cli.
Import PyStr.

(** PDFc_SearchableandEditable.py: [f.lower().endswith('.pdf') and not
    f.startswith(('editable_', 'searchable_', 'overlay_'))] *)
Definition editable_candidate (f : string) : bool :=
  endswith ".pdf" (lower f) &&
  negb (startswith "editable_" f || startswith "searchable_" f ||
        startswith "overlay_" f).

(** PDFc_SearchableandEditable.py: [output_file = f"editable_{base_name}.pdf"],
    [base_name] being [os.path.splitext(os.path.basename(selected_file))[0]]. *)
Definition editable_output_name (base_name : string) : string :=
  "editable_" ++ base_name ++ ".pdf".

(** PDFc_Searchable_only.py: [f.lower().endswith('.pdf')] *)
Definition searchable_candidate (f : string) : bool :=
  endswith ".pdf" (lower f).

(** PDFc_Searchable_only.py, method 1: [f"searchable_{selected_file}"] *)
Definition searchable_output_name (selected_file : string) : string :=
  "searchable_" ++ selected_file.

(** PDFc_Searchable_only.py, method 2:
    [selected_file.replace('.pdf', '_extracted.txt')] *)
Definition extracted_txt_name (selected_file : string) : string :=
  replace ".pdf" "_extracted.txt" selected_file.

(** PDFc_Searchable_only.py, method 3:
    [selected_file.replace('.pdf', '_chunks')] *)
Definition chunk_folder_name (selected_file : string) : string :=
  replace ".pdf" "_chunks" selected_file.

End Cli.

(** ** The chunk loop of [process_in_chunks] with its counter *)

Module ChunkLoop.
Import Chunks.
Local Open Scope nat_scope.

(** One iteration's record: [chunk_num], [(start_page, end_page)] and the
    result of [create_searchable_pdf(chunk_path, output_chunk_path)].
    [chunk_num] names the files [chunk_{chunk_num:03d}.pdf] and
    [searchable_chunk_{chunk_num:03d}.pdf]. *)
Record chunk_run := {
  cr_num : nat;
  cr_range : nat * nat;
  cr_success : bool
}.

Section WithOracle.
(** The outcome of [create_searchable_pdf] on the chunk of a range. *)
Variable succeeds : nat * nat -> bool.

(** [chunk_num = chunks_processed + 1]; [chunks_processed += 1] only
    after a successful chunk. Returns the runs and the final
    [chunks_processed]. *)
Fixpoint chunk_loop (ranges : list (nat * nat)) (chunks_processed : nat)
  : list chunk_run * nat :=
  match ranges with
  | [] => ([], chunks_processed)
  | r :: rest =>
      let chunk_num := chunks_processed + 1 in
      let success := succeeds r in
      let '(runs, final) :=
        chunk_loop rest (if success then chunks_processed + 1
                         else chunks_processed) in
      ({| cr_num := chunk_num; cr_range := r; cr_success := success |} :: runs,
       final)
  end.

Definition process_in_chunks (total_pages pages_per_chunk : nat)
  : list chunk_run * nat :=
  chunk_loop (chunks total_pages pages_per_chunk) 0.

End WithOracle.

(** [chunk_pdf.insert_pdf(pdf_document, from_page=start_page,
    to_page=end_page - 1)]: the pages copied into a chunk. *)
Definition chunk_pages (r : nat * nat) : list nat :=
  let '(s, e) := r in seq s (e - s).

End ChunkLoop.

(** ** Page loops that unpack [extract_text_from_page] into two names *)

Module TwoNameLoops.
Import Py Placement Extract.

(** Values of the tuple [extract_text_from_page] returns. *)
Inductive py_value :=
| VStr (s : string)
| VImage (i : image)
| VBoxes (b : list word_box)
| VNone.

(** The 3-tuple [(text.strip(), image, boxes)] or [("", None, None)]. *)
Definition extract_tuple (r : ocr_run) : result (list py_value) :=
  match extract_text_from_page_boxes r with
  | Raise e => Raise e
  | Ok (t, i, b) =>
      Ok [VStr t;
          match i with Some i' => VImage i' | None => VNone end;
          match b with Some b' => VBoxes b' | None => VNone end]
  end.

(** [a, b = t]: [ValueError] unless [t] has exactly two items. *)
Definition unpack2 (t : list py_value) : result (py_value * py_value) :=
  match t with
  | [a; b] => Ok (a, b)
  | _ => Raise ValueError
  end.

(** The pages [create_pdf_with_reportlab] and [create_text_only_pdf_clean]
    emit: each iteration ends in [c.showPage()], in the [try] block and in
    [except Exception as page_error]. *)
Inductive canvas_page :=
| BlankPage
| ComposedPage (n : nat).

Section Loop.
(** What the rest of the [try] block makes of [(text, image)]: [Some p]
    for a composed page counted in [successful_pages], [None] when only
    ["○"] is printed or a drawing call raised. *)
Variable compose : nat -> py_value -> py_value -> option canvas_page.

(** [for page_num in range(total_pages)]: the pages of the canvas and
    [successful_pages]. *)
Fixpoint showpage_loop (page_num : nat) (runs : list ocr_run)
  : result (list canvas_page * nat) :=
  match runs with
  | [] => Ok ([], 0%nat)
  | r :: rest =>
      let this :=
        match extract_tuple r with
        | Raise e => Raise e
        | Ok t =>
            match unpack2 t with
            | Raise e => if is_Exception e then Ok (BlankPage, 0%nat) else Raise e
            | Ok (text, img) =>
                match compose page_num text img with
                | Some p => Ok (p, 1%nat)
                | None => Ok (BlankPage, 0%nat)
                end
            end
        end in
      match this with
      | Raise e => Raise e
      | Ok (p, k) =>
          match showpage_loop (S page_num) rest with
          | Raise e => Raise e
          | Ok (ps, n) => Ok (p :: ps, (k + n)%nat)
          end
      end
  end.

(** [extract_to_text_file]: [all_text] and [successful_pages]; the
    [except] branch only [continue]s. [segments] is what a page with
    text appends to [all_text]. *)
Variable segments : nat -> py_value -> list string.

Fixpoint text_file_loop (page_num : nat) (runs : list ocr_run)
  : result (list string * nat) :=
  match runs with
  | [] => Ok ([], 0%nat)
  | r :: rest =>
      let this :=
        match extract_tuple r with
        | Raise e => Raise e
        | Ok t =>
            match unpack2 t with
            | Raise e => if is_Exception e then Ok ([], 0%nat) else Raise e
            | Ok (text, _) =>
                match text with
                | VStr "" => Ok ([], 0%nat)
                | _ => Ok (segments page_num text, 1%nat)
                end
            end
        end in
      match this with
      | Raise e => Raise e
      | Ok (seg, k) =>
          match text_file_loop (S page_num) rest with
          | Raise e => Raise e
          | Ok (segs, n) => Ok ((seg ++ segs)%list, (k + n)%nat)
          end
      end
  end.

End Loop.

(** [f.write('\n'.join(all_text))] *)
Fixpoint join_newline (xs : list string) : string :=
  match xs with
  | [] => ""
  | [x] => x
  | x :: rest => x ++ String "010" "" ++ join_newline rest
  end.

End TwoNameLoops.

(** ** Word wrapping and text layout *)

Module Layout.
Import Py Extract Reflow.

(** [s.split()]: maximal runs of non-whitespace characters; [cur] is the
    word being read. *)
Fixpoint split_acc (cur s : string) : list string :=
  match s with
  | EmptyString => if String.eqb cur "" then [] else [cur]
  | String c rest =>
      if is_space c then
        if String.eqb cur "" then split_acc "" rest
        else cur :: split_acc "" rest
      else split_acc (cur ++ String c "") rest
  end.

Definition split_ws (s : string) : list string := split_acc "" s.

(** [s.split('\n')] *)
Fixpoint split_nl_acc (cur s : string) : list string :=
  match s with
  | EmptyString => [cur]
  | String c rest =>
      if Ascii.eqb c "010"%char then cur :: split_nl_acc "" rest
      else split_nl_acc (cur ++ String c "") rest
  end.

Definition split_newline (s : string) : list string := split_nl_acc "" s.

(** [str(n)] for a natural number. *)
Fixpoint str_nat_aux (fuel n : nat) (acc : string) : string :=
  match fuel with
  | O => acc
  | S f =>
      let acc' := String (ascii_of_nat (48 + n mod 10)) acc in
      if Nat.ltb n 10 then acc' else str_nat_aux f (n / 10) acc'
  end.

Definition str_nat (n : nat) : string := str_nat_aux (S n) n "".

(** The greedy wrap written out in [create_image_with_selectable_text]
    and [create_text_only_pdf_clean]:
    [for word in words: test_line = ' '.join(current_line + [word]);
     if <test_line fits>: current_line.append(word)
     else: if current_line: lines.append(' '.join(current_line));
           current_line = [word]].
    [fits] is the width test of each caller. *)
Fixpoint wrap_loop (fits : string -> bool) (words : list string)
    (lines current_line : list string) : list string * list string :=
  match words with
  | [] => (lines, current_line)
  | word :: rest =>
      let test_line := join_space (current_line ++ [word])%list in
      if fits test_line then wrap_loop fits rest lines (current_line ++ [word])%list
      else
        wrap_loop fits rest
          (lines ++ match current_line with
                    | [] => []
                    | _ :: _ => [join_space current_line]
                    end)%list
          [word]
  end.

(** The loop followed by [if current_line: lines.append(...)]. *)
Definition wrap (fits : string -> bool) (words : list string) : list string :=
  let '(lines, current_line) := wrap_loop fits words [] [] in
  match current_line with
  | [] => lines
  | _ :: _ => (lines ++ [join_space current_line])%list
  end.

(** *** [create_pdf_with_reportlab]: the page image on a letter page *)

(** [scale = min(letter[0] / img_width, letter[1] / img_height) * 0.95],
    the image drawn at [(x, y)] with size [(new_width, new_height)]. *)
Definition fit_on_letter (img_width img_height : Z) : Q * Q * Q * Q :=
  let scale_x := 612 / inject_Z img_width in
  let scale_y := 792 / inject_Z img_height in
  let scale := py_min scale_x scale_y * (95 # 100) in
  let new_width := inject_Z img_width * scale in
  let new_height := inject_Z img_height * scale in
  let x := (612 - new_width) / 2 in
  let y := (792 - new_height) / 2 in
  (x, y, new_width, new_height).

(** *** [create_image_with_selectable_text] *)

(** [font_size = max(12, min(24, img_with_text.height // 40))] *)
Definition overlay_font_size (height : Z) : Z :=
  Z.max 12 (Z.min 24 (height / 40)).

(** [for line in lines: if y_pos + line_height < height - 50:
       ...; draw.text((55, y_pos), line, ...); y_pos += line_height
     else: break]; the [(y_pos, line)] of each line drawn. *)
Fixpoint draw_text_lines (y_pos line_height height : Z) (lines : list string)
  : list (Z * string) :=
  match lines with
  | [] => []
  | line :: rest =>
      if Z.ltb (y_pos + line_height) (height - 50) then
        (y_pos, line) :: draw_text_lines (y_pos + line_height) line_height height rest
      else []
  end.

Section Overlay.
(** [draw.textlength(s, font=font)] *)
Variable textlength : string -> Q.

(** The wrapped lines: [draw.textlength(test_line) < width - 100]. *)
Definition overlay_lines (img : image) (ocr_text : string) : list string :=
  wrap (fun t => Qltb (textlength t) (inject_Z (img_width img - 100)))
    (split_ws ocr_text).

(** The lines drawn under [if ocr_text and font:]; [font_ok] says whether
    [truetype] or [load_default] gave a font. *)
Definition overlay_text (font_ok : bool) (img : image) (ocr_text : string)
  : list (Z * string) :=
  if negb (String.eqb ocr_text "") && font_ok then
    let font_size := overlay_font_size (img_height img) in
    draw_text_lines 50 (font_size + 5) (img_height img) (overlay_lines img ocr_text)
  else [].

End Overlay.

(** *** [create_text_only_pdf_clean]: drawing the paragraphs *)

(** Canvas calls: [c.drawString(x, y, s)] under the current font, and
    [c.showPage()]. *)
Inductive pdf_op :=
| DrawString (font_name : string) (font_size : Q) (x y : Q) (s : string)
| ShowPage.

(** [c._fontname], [c._fontsize] and [y_pos]. *)
Record canvas_state := {
  font_name : string;
  font_size : Q;
  y_pos : Q
}.

Definition left_margin : Q := 72.
Definition top_margin : Q := 792 - 72.
Definition bottom_margin : Q := 72.

(** [for line in lines: if y_pos > bottom_margin: c.drawString(...);
     y_pos -= line_height
   else: c.showPage(); c.setFont("Helvetica-Bold", 14);
     c.drawString(left_margin, top_margin, f"Page {page_num + 1} (continued)");
     y_pos = top_margin - 30; c.setFont(c._fontname, c._fontsize)] *)
Fixpoint draw_paragraph_lines (page_num : nat) (line_height : Q)
    (st : canvas_state) (lines : list string) : list pdf_op * canvas_state :=
  match lines with
  | [] => ([], st)
  | line :: rest =>
      if Qltb bottom_margin (y_pos st) then
        let '(ops, st') :=
          draw_paragraph_lines page_num line_height
            {| font_name := font_name st; font_size := font_size st;
               y_pos := y_pos st - line_height |} rest in
        (DrawString (font_name st) (font_size st) left_margin (y_pos st) line
           :: ops, st')
      else
        let '(ops, st') :=
          draw_paragraph_lines page_num line_height
            {| font_name := "Helvetica-Bold"; font_size := 14;
               y_pos := top_margin - 30 |} rest in
        (ShowPage
           :: DrawString "Helvetica-Bold" 14 left_margin top_margin
                ("Page " ++ str_nat (page_num + 1) ++ " (continued)")
           :: ops, st')
  end.

Section TextOnly.
(** [c.stringWidth(text, font_name, font_size)] *)
Variable string_width : string -> string -> Q -> Q.

(** Font and [line_height] of a paragraph. *)
Definition paragraph_font (paragraph : string) : string * Q * Q :=
  if is_header paragraph then ("Helvetica-Bold", 12, 20)
  else ("Helvetica", 11, 14).

(** The lines of a paragraph: [text_width < right_margin - left_margin]. *)
Definition paragraph_lines (paragraph : string) : list string :=
  let '(fname, fsize, _) := paragraph_font paragraph in
  wrap (fun t => Qltb (string_width t fname fsize) ((612 - 72) - 72))
    (split_ws paragraph).

(** One iteration of [for paragraph in paragraphs]. *)
Definition draw_paragraph (page_num : nat) (st : canvas_state) (paragraph : string)
  : list pdf_op * canvas_state :=
  if String.eqb (strip paragraph) "" then ([], st)
  else
    let '(fname, fsize, line_height) := paragraph_font paragraph in
    let '(ops, st') :=
      draw_paragraph_lines page_num line_height
        {| font_name := fname; font_size := fsize; y_pos := y_pos st |}
        (paragraph_lines paragraph) in
    (ops, {| font_name := font_name st'; font_size := font_size st';
             y_pos := y_pos st' - line_height * (1 # 2) |}).

Fixpoint draw_paragraphs (page_num : nat) (st : canvas_state)
    (paragraphs : list string) : list pdf_op * canvas_state :=
  match paragraphs with
  | [] => ([], st)
  | p :: rest =>
      let '(ops1, st1) := draw_paragraph page_num st p in
      let '(ops2, st2) := draw_paragraphs page_num st1 rest in
      ((ops1 ++ ops2)%list, st2)
  end.

(** The body of [if text:] for one page: the reflow, the page header
    and the paragraphs, up to the final [c.showPage()]. *)
Definition render_text_page (page_num : nat) (text : string) : list pdf_op :=
  let paragraphs := reflow_lines (split_newline text) in
  let st0 := {| font_name := "Helvetica-Bold"; font_size := 14;
                y_pos := top_margin - 30 |} in
  DrawString "Helvetica-Bold" 14 left_margin top_margin
    ("Page " ++ str_nat (page_num + 1))
    :: fst (draw_paragraphs page_num st0 paragraphs).

(** All the lines the paragraphs of a page wrap into. *)
Definition page_lines (text : string) : list string :=
  flat_map (fun p => if String.eqb (strip p) "" then [] else paragraph_lines p)
    (reflow_lines (split_newline text)).

End TextOnly.

(** The body text drawn (below the page header line) and the page
    breaks. *)
Definition body_lines (ops : list pdf_op) : list string :=
  flat_map (fun op => match op with
                      | DrawString _ _ _ y s => if Qltb y top_margin then [s] else []
                      | ShowPage => []
                      end) ops.

Definition page_breaks (ops : list pdf_op) : nat :=
  List.length (filter (fun op => match op with ShowPage => true | _ => false end) ops).

End Layout.

(** ** Sample inputs *)

Module Samples.
Import Placement Extract.

(** Two adjacent words on one line, rasterized at 72 dpi on a page 100
    points high. *)
Definition wA : word_box :=
  {| wb_text := "A"; wb_conf := 90; wb_left := 0; wb_top := 10;
     wb_width := 10; wb_height := 10 |}.
Definition wB : word_box :=
  {| wb_text := "B"; wb_conf := 90; wb_left := 10; wb_top := 10;
     wb_width := 10; wb_height := 10 |}.

(** Three words of equal height 30 px whose tops drift by 5 px. *)
Definition drift (top : Z) (t : string) : word_box :=
  {| wb_text := t; wb_conf := 90; wb_left := 20 * top; wb_top := top;
     wb_width := 10; wb_height := 30 |}.
Definition dA := drift 0 "A".
Definition dB := drift 5 "B".
Definition dC := drift 10 "C".

(** A box 1000 px high, rasterized at 300 dpi. *)
Definition tall : word_box :=
  {| wb_text := "Tall"; wb_conf := 95; wb_left := 0; wb_top := 0;
     wb_width := 400; wb_height := 1000 |}.

(** A row Tesseract reports with confidence -1. *)
Definition noise : word_box :=
  {| wb_text := "~"; wb_conf := -1; wb_left := 30; wb_top := 10;
     wb_width := 5; wb_height := 10 |}.

Definition letter_img : image := {| img_width := 612; img_height := 792 |}.

(** A page with one word, and a page on which OCR finds no word. *)
Definition page_with_word : ocr_run := OcrReturns letter_img "A" [wA].
Definition page_without_words : ocr_run := OcrReturns letter_img "" [].

End Samples.

(** * Properties *)

Module PlacementFacts.
Import Py Placement.

Lemma Qltb_iff (a b : Q) : Qltb a b = true <-> a < b.
Proof.
  unfold Qltb. rewrite negb_true_iff. split.
  - intro H. apply Qnot_le_lt. intro Hle.
    apply Qle_bool_iff in Hle. congruence.
  - intro H. destruct (Qle_bool b a) eqn:E; [|reflexivity].
    apply Qle_bool_iff in E. exfalso. exact (Qlt_not_le _ _ H E).
Qed.

Lemma Qltb_false (a b : Q) : Qltb a b = false <-> b <= a.
Proof.
  unfold Qltb. rewrite negb_false_iff. apply Qle_bool_iff.
Qed.

(** The operations of one loop iteration. *)
Lemma word_ops_inv dpi ph boxes i o :
  In o (word_ops dpi ph boxes i) ->
  exists b, nth_error boxes i = Some b /\ 0 < wb_conf b /\
    strip (wb_text b) <> "" /\
    o = {| op_x := x_of dpi ph (prev_box boxes i) b; op_y := y_of dpi ph b;
           op_font := font_size_of dpi b; op_text := strip (wb_text b) |}.
Proof.
  unfold word_ops. destruct (nth_error boxes i) as [b|] eqn:Hb; [|intros []].
  destruct (Qltb 0 (wb_conf b)) eqn:Hc; [|intros []].
  destruct (String.eqb (strip (wb_text b)) "") eqn:He; [intros []|].
  intros [<-|[]]. exists b. repeat split; auto.
  - apply Qltb_iff. exact Hc.
  - apply String.eqb_neq. exact He.
Qed.

(** Every operation of the loop comes from one iteration. *)
Lemma place_words_inv dpi ph boxes o :
  In o (place_words dpi ph boxes) ->
  exists i, (i < List.length boxes)%nat /\ In o (word_ops dpi ph boxes i).
Proof.
  unfold place_words. intro H. apply in_concat in H.
  destruct H as [ops [Hin Ho]]. apply in_map_iff in Hin.
  destruct Hin as [i [<- Hi]]. apply in_seq in Hi.
  exists i. split; [lia | exact Ho].
Qed.

(** The clamp [max(min(v, 14), 8)]. *)
Lemma clamp_spec (v : Q) :
  let f := py_max (py_min v 14) 8 in
  8 <= f /\ f <= 14 /\ (v <= 8 -> f == 8) /\ (14 <= v -> f == 14) /\
  (8 <= v -> v <= 14 -> f == v).
Proof.
  unfold py_max, py_min.
  destruct (Qltb 14 v) eqn:E1;
    [apply Qltb_iff in E1 | apply Qltb_false in E1];
  [ destruct (Qltb 14 8) eqn:E2; [apply Qltb_iff in E2 | apply Qltb_false in E2]
  | destruct (Qltb v 8) eqn:E2; [apply Qltb_iff in E2 | apply Qltb_false in E2] ];
  cbv zeta; repeat split; intros; lra.
Qed.

Lemma Qabs_sym (a b : Q) : Qabs (a - b) == Qabs (b - a).
Proof.
  rewrite <- Qabs_opp. apply Qabs_wd. ring.
Qed.

End PlacementFacts.

Module PlacementClaims.
Import Py Placement Samples PlacementFacts.

(** Claim C1, as stated: every word is drawn at
    [x_pt = left_px * 72 / dpi], [y_pt = page_height_pt - (top_px +
    height_px) * 72 / dpi]. False: the second of two adjacent words on
    one line is drawn one space width to the right of its box. *)
Lemma C1_counterexample :
  ~ (forall dpi ph boxes i b o,
       nth_error boxes i = Some b -> In o (word_ops dpi ph boxes i) ->
       op_x o == inject_Z (wb_left b) * 72 / inject_Z dpi /\
       op_y o == ph - inject_Z (wb_top b + wb_height b) * 72 / inject_Z dpi).
Proof.
  intro H.
  pose (o := {| op_x := 0; op_y := 0; op_font := 0; op_text := "" |}).
  destruct (H 72%Z 100 [wA; wB] 1%nat wB
              (hd o (word_ops 72 100 [wA; wB] 1)) eq_refl) as [Hx _].
  - vm_compute. left. reflexivity.
  - vm_compute in Hx. discriminate Hx.
Qed.

(** Claim C1 (amended): the word of row [i] is drawn at
    [y_pt = page_height_pt - (top_px + height_px) * 72 / dpi] and at
    [x_pt = left_px * 72 / dpi], moved right by one space width when the
    previous row [boxes[i-1]] is judged on the same line and the gap
    between the boxes is under three space widths. *)
Theorem C1_placement_coordinates dpi ph boxes i b o :
  nth_error boxes i = Some b ->
  In o (word_ops dpi ph boxes i) ->
  op_y o = ph - inject_Z (wb_top b + wb_height b) * 72 / inject_Z dpi /\
  op_x o == inject_Z (wb_left b) * 72 / inject_Z dpi +
            match prev_box boxes i with
            | Some p =>
                if same_line dpi ph p b && close_gap dpi p b
                then space_width (font_size_of dpi b) else 0
            | None => 0
            end.
Proof.
  intros Hb Ho. apply word_ops_inv in Ho.
  destruct Ho as [b' [Hb' [_ [_ ->]]]].
  rewrite Hb in Hb'. injection Hb' as <-. cbn [op_x op_y].
  split; [reflexivity|].
  unfold x_of, to_pt. destruct (prev_box boxes i) as [p|].
  - destruct (same_line dpi ph p b && close_gap dpi p b); [reflexivity|].
    rewrite Qplus_0_r. reflexivity.
  - rewrite Qplus_0_r. reflexivity.
Qed.

Lemma C1_placement_coordinates_witness :
  nth_error [wA; wB] 1 = Some wB /\
  In (hd {| op_x := 0; op_y := 0; op_font := 0; op_text := "" |}
          (word_ops 72 100 [wA; wB] 1)) (word_ops 72 100 [wA; wB] 1) /\
  op_y (hd {| op_x := 0; op_y := 0; op_font := 0; op_text := "" |}
          (word_ops 72 100 [wA; wB] 1)) =
    100 - inject_Z (wb_top wB + wb_height wB) * 72 / inject_Z 72.
Proof.
  assert (Hin : In (hd {| op_x := 0; op_y := 0; op_font := 0; op_text := "" |}
          (word_ops 72 100 [wA; wB] 1)) (word_ops 72 100 [wA; wB] 1))
    by (vm_compute; left; reflexivity).
  split; [reflexivity|]. split; [exact Hin|].
  exact (proj1 (C1_placement_coordinates 72 100 [wA; wB] 1 wB _ eq_refl Hin)).
Defined.

(** Claim C2: the font size of every drawn word is
    [height_px * 72 / dpi] clamped to [[8, 14]]; a box 1000 px high at
    300 dpi gets size 14. *)
Theorem C2_font_size_clamped dpi ph boxes i b o :
  nth_error boxes i = Some b ->
  In o (word_ops dpi ph boxes i) ->
  let v := inject_Z (wb_height b) * 72 / inject_Z dpi in
  op_font o = py_max (py_min v 14) 8 /\
  8 <= op_font o /\ op_font o <= 14 /\
  (v <= 8 -> op_font o == 8) /\ (14 <= v -> op_font o == 14) /\
  (8 <= v -> v <= 14 -> op_font o == v) /\
  font_size_of 300 tall == 14.
Proof.
  intros Hb Ho v. apply word_ops_inv in Ho.
  destruct Ho as [b' [Hb' [_ [_ ->]]]].
  rewrite Hb in Hb'. injection Hb' as <-. cbn [op_font].
  destruct (clamp_spec v) as [H1 [H2 [H3 [H4 H5]]]].
  split; [reflexivity|]. repeat split; auto.
Qed.

Lemma C2_font_size_clamped_witness :
  In (hd {| op_x := 0; op_y := 0; op_font := 0; op_text := "" |}
          (word_ops 300 792 [tall] 0)) (word_ops 300 792 [tall] 0) /\
  op_font (hd {| op_x := 0; op_y := 0; op_font := 0; op_text := "" |}
          (word_ops 300 792 [tall] 0)) <= 14.
Proof.
  assert (Hin : In (hd {| op_x := 0; op_y := 0; op_font := 0; op_text := "" |}
          (word_ops 300 792 [tall] 0)) (word_ops 300 792 [tall] 0))
    by (vm_compute; left; reflexivity).
  split; [exact Hin|].
  exact (proj1 (proj2 (proj2
    (C2_font_size_clamped 300 792 [tall] 0 tall _ eq_refl Hin)))).
Defined.

(** Claim C4, as stated: when two consecutive words are on one line and
    close, a single space is inserted between them instead of starting a
    new text run. False: [A] and [B] below are judged on one line and
    close, yet each is drawn by its own [drawString] and no string with a
    space is drawn. *)
Lemma C4_counterexample :
  same_line 72 100 wA wB = true /\ close_gap 72 wA wB = true /\
  map op_text (place_words 72 100 [wA; wB]) = ["A"; "B"] /\
  ~ (exists o, In o (place_words 72 100 [wA; wB]) /\ op_text o = "A B").
Proof.
  split; [vm_compute; reflexivity|].
  split; [vm_compute; reflexivity|].
  split; [vm_compute; reflexivity|].
  intros [o [Hin Ht]]. vm_compute in Hin.
  destruct Hin as [<-|[<-|[]]]; discriminate Ht.
Qed.

(** Claim C4 (amended): for consecutive rows [p = boxes[j]] and
    [b = boxes[j+1]], the rows are judged on one line exactly when the
    distance between their computed baselines is below half of [b]'s
    font size; the gap test compares the distance from [p]'s right edge
    to [b]'s left edge with three space widths; when both hold, [b]'s
    word is drawn alone, one space width to the right of its box. *)
Theorem C4_same_line_spacing dpi ph boxes j p b o :
  nth_error boxes j = Some p ->
  nth_error boxes (S j) = Some b ->
  In o (word_ops dpi ph boxes (S j)) ->
  (same_line dpi ph p b = true <->
     Qabs (y_of dpi ph b - y_of dpi ph p) < font_size_of dpi b / 2) /\
  (close_gap dpi p b = true <->
     to_pt dpi (wb_left b) - (to_pt dpi (wb_left p) + to_pt dpi (wb_width p))
       < space_width (font_size_of dpi b) * 3) /\
  op_text o = strip (wb_text b) /\
  op_x o == to_pt dpi (wb_left b) +
            (if same_line dpi ph p b && close_gap dpi p b
             then space_width (font_size_of dpi b) else 0).
Proof.
  intros Hp Hb Ho. apply word_ops_inv in Ho.
  destruct Ho as [b' [Hb' [_ [_ ->]]]].
  rewrite Hb in Hb'. injection Hb' as <-. cbn [op_x op_text].
  split; [apply Qltb_iff|]. split; [apply Qltb_iff|]. split; [reflexivity|].
  unfold x_of. cbn [prev_box]. rewrite Hp.
  destruct (same_line dpi ph p b && close_gap dpi p b); [reflexivity|].
  rewrite Qplus_0_r. reflexivity.
Qed.

Lemma C4_same_line_spacing_witness :
  op_x (hd {| op_x := 0; op_y := 0; op_font := 0; op_text := "" |}
          (word_ops 72 100 [wA; wB] 1)) ==
    to_pt 72 (wb_left wB) +
    (if same_line 72 100 wA wB && close_gap 72 wA wB
     then space_width (font_size_of 72 wB) else 0).
Proof.
  assert (Hin : In (hd {| op_x := 0; op_y := 0; op_font := 0; op_text := "" |}
          (word_ops 72 100 [wA; wB] 1)) (word_ops 72 100 [wA; wB] 1))
    by (vm_compute; left; reflexivity).
  exact (proj2 (proj2 (proj2
    (C4_same_line_spacing 72 100 [wA; wB] 0 wA wB _ eq_refl eq_refl Hin)))).
Defined.

(** Claim C5, as stated: with equal box heights, the same-line judgment
    is transitive. False: tops 0, 5 and 10 px (height 30 px, 72 dpi,
    threshold 7 pt) give A~B and B~C but not A~C. *)
Lemma C5_counterexample :
  ~ (forall dpi ph a b c,
       wb_height a = wb_height b -> wb_height b = wb_height c ->
       same_line dpi ph a b = true -> same_line dpi ph b c = true ->
       same_line dpi ph a c = true).
Proof.
  intro H.
  specialize (H 72%Z 100 dA dB dC eq_refl eq_refl eq_refl eq_refl).
  vm_compute in H. discriminate H.
Qed.

(** Claim C5 (amended): with equal box heights the same-line judgment is
    symmetric; from A~B and B~C it only follows that the baselines of A
    and C are less than one font size apart (twice the threshold). *)
Theorem C5_same_line_symmetric dpi ph a b c :
  wb_height a = wb_height b -> wb_height b = wb_height c ->
  same_line dpi ph a b = same_line dpi ph b a /\
  (same_line dpi ph a b = true -> same_line dpi ph b c = true ->
   Qabs (y_of dpi ph c - y_of dpi ph a) < font_size_of dpi c).
Proof.
  intros Hab Hbc.
  assert (Fab : font_size_of dpi a = font_size_of dpi b)
    by (unfold font_size_of, to_pt; rewrite Hab; reflexivity).
  assert (Fbc : font_size_of dpi b = font_size_of dpi c)
    by (unfold font_size_of, to_pt; rewrite Hbc; reflexivity).
  split.
  - unfold same_line, Qltb. rewrite Fab. rewrite (Qabs_sym (y_of dpi ph a)).
    reflexivity.
  - unfold same_line. rewrite !Qltb_iff. intros H1 H2.
    rewrite Fbc in H1.
    assert (E : y_of dpi ph c - y_of dpi ph a ==
                (y_of dpi ph c - y_of dpi ph b) + (y_of dpi ph b - y_of dpi ph a))
      by ring.
    rewrite E. eapply Qle_lt_trans; [apply Qabs_triangle|].
    clear E. revert H1 H2.
    generalize (Qabs (y_of dpi ph c - y_of dpi ph b))
      (Qabs (y_of dpi ph b - y_of dpi ph a)) (font_size_of dpi c).
    intros u w f H1 H2.
    apply Qlt_le_trans with (f / 2 + f / 2); [| apply Qle_lteq; right; field].
    apply Qplus_lt_le_compat; [exact H2 | apply Qlt_le_weak; exact H1].
Qed.

Lemma C5_same_line_symmetric_witness :
  same_line 72 100 dA dB = same_line 72 100 dB dA.
Proof.
  exact (proj1 (C5_same_line_symmetric 72 100 dA dB dC eq_refl eq_refl)).
Defined.

(** Claim C9: a row whose confidence is at most 0 gives no drawing
    operation; every drawn word comes from a row of confidence above 0. *)
Theorem C9_nonpositive_confidence_discarded dpi ph boxes :
  (forall i b, nth_error boxes i = Some b -> wb_conf b <= 0 ->
     word_ops dpi ph boxes i = []) /\
  (forall o, In o (place_words dpi ph boxes) ->
     exists i b, nth_error boxes i = Some b /\ 0 < wb_conf b /\
       op_text o = strip (wb_text b)).
Proof.
  split.
  - intros i b Hb Hc. unfold word_ops. rewrite Hb.
    replace (Qltb 0 (wb_conf b)) with false; [reflexivity|].
    symmetry. apply Qltb_false. exact Hc.
  - intros o Ho. apply place_words_inv in Ho. destruct Ho as [i [_ Ho]].
    apply word_ops_inv in Ho. destruct Ho as [b [Hb [Hc [_ ->]]]].
    exists i, b. auto.
Qed.

End PlacementClaims.

Module EditableClaims.
Import Placement Extract Editable Samples.

(** Claim C3 (on the code): [create_editable_pdf] leaves a page on which
    OCR finds no word out of the output, and when no page has a word it
    returns [False] without writing any output. *)
Theorem C3_wordless_page_dropped :
  create_editable_pdf 72 [page_with_word; page_without_words] =
    Ok (Some [compose_page 72 letter_img [wA]]) /\
  create_editable_pdf 72 [page_without_words] = Ok None.
Proof.
  split; reflexivity.
Qed.

End EditableClaims.

Module ReflowClaims.
Import Py Reflow.

Lemma reflow_loop_snoc lines l :
  reflow_loop (lines ++ [l]) = reflow_step (reflow_loop lines) l.
Proof.
  unfold reflow_loop. rewrite fold_left_app. reflexivity.
Qed.

(** Claim C6: after one more input line [l] (stripped to [line]): a
    blank line flushes the buffer, if any, and leaves it empty; a
    non-blank line leaves the buffer empty, with the buffer and the line
    flushed as one paragraph, exactly when it is shorter than 40
    characters or ends with one of [. ! ? : ;]; otherwise it is appended
    to the buffer and no paragraph is emitted. *)
Theorem C6_reflow_paragraph_breaks lines l :
  let line := strip l in
  let st := reflow_loop lines in
  let st' := reflow_loop (lines ++ [l]) in
  (line = "" ->
     current_para st' = [] /\
     paragraphs st' =
       (paragraphs st ++
        match current_para st with [] => [] | cur => [join_space cur] end)%list) /\
  (line <> "" ->
     (current_para st' = [] <->
        ends_sentence line = true \/ (String.length line < 40)%nat)) /\
  (line <> "" ->
     ends_sentence line = true \/ (String.length line < 40)%nat ->
     paragraphs st' =
       (paragraphs st ++ [join_space (current_para st ++ [line])%list])%list) /\
  (line <> "" ->
     ends_sentence line = false -> (40 <= String.length line)%nat ->
     paragraphs st' = paragraphs st /\
     current_para st' = (current_para st ++ [line])%list) /\
  (forall s, ends_sentence s = true <->
     exists c, last_char s = Some c /\ In c ["."; "!"; "?"; ":"; ";"]%char).
Proof.
  cbv zeta. rewrite reflow_loop_snoc.
  destruct (reflow_loop lines) as [paras cur]. cbn [paragraphs current_para].
  unfold reflow_step. cbn [paragraphs current_para].
  split; [|split; [|split; [|split]]].
  - intro H. rewrite H. cbn.
    destruct cur; cbn; rewrite ?app_nil_r; split; reflexivity.
  - intros H. apply String.eqb_neq in H. rewrite H.
    destruct (ends_sentence (strip l) || Nat.ltb (String.length (strip l)) 40)
      eqn:E; cbn [current_para]; split.
    + intros _. apply orb_true_iff in E. destruct E as [E|E]; [left; exact E|].
      right. apply Nat.ltb_lt. exact E.
    + reflexivity.
    + intro Hc. destruct cur; discriminate Hc.
    + intro Hc. apply orb_false_iff in E. destruct E as [E1 E2].
      apply Nat.ltb_ge in E2. exfalso. destruct Hc as [Hc|Hc]; [congruence | lia].
  - intros H Hc. apply String.eqb_neq in H. rewrite H.
    destruct (ends_sentence (strip l) || Nat.ltb (String.length (strip l)) 40)
      eqn:E; cbn [paragraphs]; [reflexivity|].
    apply orb_false_iff in E. destruct E as [E1 E2].
    apply Nat.ltb_ge in E2. exfalso. destruct Hc as [Hc|Hc]; [congruence | lia].
  - intros H He Hl. apply String.eqb_neq in H. rewrite H.
    replace (ends_sentence (strip l) || Nat.ltb (String.length (strip l)) 40)
      with false; [split; reflexivity|].
    rewrite He. symmetry. apply Nat.ltb_ge. exact Hl.
  - intros s. unfold ends_sentence. destruct (last_char s) as [c|].
    + split.
      * intro H. apply existsb_exists in H. destruct H as [d [Hd Hcd]].
        apply Ascii.eqb_eq in Hcd. subst d. exists c. split; auto.
      * intros [c' [Hc Hin]]. injection Hc as <-. apply existsb_exists.
        exists c. split; [exact Hin | apply Ascii.eqb_refl].
    + split; [discriminate|]. intros [c [Hc _]]. discriminate Hc.
Qed.

(** Claim C7, as stated: the four lines give exactly two paragraphs.
    False: "More body." ends with a period and is flushed on its own. *)
Lemma C7_counterexample :
  List.length
    (reflow_lines ["HEADER"; ""; "Body text that continues."; "More body."])
  <> 2%nat.
Proof.
  vm_compute. discriminate.
Qed.

(** Claim C7 (amended): the four lines give three paragraphs, and only
    the first, "HEADER", is classified as a heading. *)
Theorem C7_reflow_example :
  reflow_lines ["HEADER"; ""; "Body text that continues."; "More body."] =
    ["HEADER"; "Body text that continues."; "More body."] /\
  map is_header
    (reflow_lines ["HEADER"; ""; "Body text that continues."; "More body."]) =
    [true; false; false].
Proof.
  split; vm_compute; reflexivity.
Qed.

End ReflowClaims.

Module ChunkClaims.
Import Chunks.
Local Open Scope nat_scope.
Local Open Scope list_scope.

(** The sizes of the chunks covering [m] remaining pages. *)
Definition expected_sizes (ppc m : nat) : list nat :=
  repeat ppc (m / ppc) ++ (if m mod ppc =? 0 then [] else [m mod ppc]).

Lemma chunk_ranges_done fuel start total ppc :
  (total <= start)%nat -> chunk_ranges fuel start total ppc = [].
Proof.
  intro H. destruct fuel; [reflexivity|]. simpl.
  replace (Nat.ltb start total) with false; [reflexivity|].
  symmetry. apply Nat.ltb_ge. exact H.
Qed.

Lemma expected_sizes_step ppc m :
  (0 < ppc)%nat -> (ppc <= m)%nat ->
  expected_sizes ppc m = ppc :: expected_sizes ppc (m - ppc).
Proof.
  intros Hp Hm. unfold expected_sizes.
  assert (E : m = (m - ppc) + 1 * ppc) by lia.
  set (k := (m - ppc)%nat) in *. clearbody k. subst m.
  rewrite Nat.div_add, Nat.Div0.mod_add by lia.
  rewrite Nat.add_1_r. reflexivity.
Qed.

Lemma expected_sizes_last ppc m :
  (0 < m)%nat -> (m < ppc)%nat -> expected_sizes ppc m = [m].
Proof.
  intros Hm Hp. unfold expected_sizes.
  rewrite Nat.div_small, Nat.mod_small by lia.
  replace (m =? 0) with false; [reflexivity|].
  symmetry. apply Nat.eqb_neq. lia.
Qed.

Lemma chunk_ranges_sizes ppc total fuel start :
  (0 < ppc)%nat -> (start <= total)%nat -> (total - start <= fuel * ppc)%nat ->
  map (fun '(s, e) => (e - s)%nat) (chunk_ranges fuel start total ppc) =
    expected_sizes ppc (total - start).
Proof.
  intros Hp. revert start. induction fuel as [|f IH]; intros start Hs Hf.
  - simpl. replace (total - start)%nat with 0%nat by lia.
    unfold expected_sizes. rewrite Nat.Div0.div_0_l, Nat.Div0.mod_0_l.
    reflexivity.
  - simpl. destruct (Nat.ltb start total) eqn:Hlt.
    + apply Nat.ltb_lt in Hlt.
      destruct (Nat.le_gt_cases ppc (total - start)) as [Hge|Hlt'].
      * rewrite expected_sizes_step by lia.
        rewrite Nat.min_l by lia. cbn [map].
        rewrite IH by lia.
        replace (total - (start + ppc))%nat with (total - start - ppc)%nat by lia.
        f_equal. lia.
      * rewrite expected_sizes_last by lia.
        rewrite Nat.min_r by lia.
        rewrite chunk_ranges_done by lia. reflexivity.
    + apply Nat.ltb_ge in Hlt. replace (total - start)%nat with 0%nat by lia.
      unfold expected_sizes. rewrite Nat.Div0.div_0_l, Nat.Div0.mod_0_l.
      reflexivity.
Qed.

Lemma chunk_sizes_expected total ppc :
  (0 < ppc)%nat -> chunk_sizes total ppc = expected_sizes ppc total.
Proof.
  intro Hp. unfold chunk_sizes, chunks.
  rewrite chunk_ranges_sizes by nia. rewrite Nat.sub_0_r. reflexivity.
Qed.

Lemma ceil_div m ppc :
  (0 < ppc)%nat ->
  ((m + ppc - 1) / ppc = m / ppc + (if m mod ppc =? 0 then 0 else 1))%nat.
Proof.
  intro Hp.
  pose proof (Nat.div_mod m ppc ltac:(lia)) as Hm.
  pose proof (Nat.mod_upper_bound m ppc ltac:(lia)) as Hr.
  set (q := (m / ppc)%nat) in *. set (r := (m mod ppc)%nat) in *.
  destruct (r =? 0) eqn:Er.
  - apply Nat.eqb_eq in Er.
    symmetry. apply Nat.div_unique with (ppc - 1)%nat; lia.
  - apply Nat.eqb_neq in Er.
    symmetry. apply Nat.div_unique with (r - 1)%nat; lia.
Qed.

(** Claim C8: with [total_pages > 0] and [pages_per_chunk > 0] there are
    [ceil(total_pages / pages_per_chunk)] chunks, all of
    [pages_per_chunk] pages but the last, which has
    [total_pages mod pages_per_chunk] pages, or [pages_per_chunk] when
    the division is exact; 120 pages at 50 per chunk give 50, 50, 20. *)
Theorem C8_chunk_sizes total_pages pages_per_chunk :
  (0 < total_pages)%nat -> (0 < pages_per_chunk)%nat ->
  let sizes := chunk_sizes total_pages pages_per_chunk in
  List.length sizes =
    ((total_pages + pages_per_chunk - 1) / pages_per_chunk)%nat /\
  (exists init last,
     sizes = init ++ [last] /\
     Forall (fun n => n = pages_per_chunk) init /\
     last = (if total_pages mod pages_per_chunk =? 0
             then pages_per_chunk else total_pages mod pages_per_chunk)) /\
  chunk_sizes 120 50 = [50; 50; 20]%nat.
Proof.
  intros Ht Hp sizes. subst sizes.
  rewrite chunk_sizes_expected by exact Hp.
  split; [|split; [|vm_compute; reflexivity]].
  - rewrite ceil_div by exact Hp. unfold expected_sizes.
    rewrite length_app, repeat_length.
    destruct (total_pages mod pages_per_chunk =? 0); reflexivity.
  - unfold expected_sizes.
    destruct (total_pages mod pages_per_chunk =? 0) eqn:Er.
    + apply Nat.eqb_eq in Er.
      assert (Hq : (0 < total_pages / pages_per_chunk)%nat).
      { pose proof (Nat.div_mod total_pages pages_per_chunk ltac:(lia)).
        destruct (total_pages / pages_per_chunk)%nat; lia. }
      exists (repeat pages_per_chunk (total_pages / pages_per_chunk - 1)),
             pages_per_chunk.
      split; [|split; [|reflexivity]].
      * rewrite app_nil_r.
        replace (total_pages / pages_per_chunk)%nat
          with ((total_pages / pages_per_chunk - 1) + 1)%nat at 1 by lia.
        rewrite repeat_app. reflexivity.
      * apply Forall_forall. intros x Hx. apply repeat_spec in Hx. exact Hx.
    + exists (repeat pages_per_chunk (total_pages / pages_per_chunk)),
             (total_pages mod pages_per_chunk).
      split; [reflexivity|]. split; [|reflexivity].
      apply Forall_forall. intros x Hx. apply repeat_spec in Hx. exact Hx.
Qed.

Lemma C8_chunk_sizes_witness :
  List.length (chunk_sizes 120 50) = ((120 + 50 - 1) / 50)%nat.
Proof.
  exact (proj1 (C8_chunk_sizes 120 50 ltac:(lia) ltac:(lia))).
Defined.

End ChunkClaims.

Module ExtractClaims.
Import Placement Extract Samples.

(** Claim C10, as stated: [extract_text_from_page] never propagates an
    exception, and a failed page looks like a page without text. False
    on both counts: [KeyboardInterrupt] escapes [except Exception], and
    in the word-box variant a page without text returns its image and
    boxes while a failed page returns [("", None, None)]. *)
Lemma C10_counterexample :
  extract_text_from_page_boxes (OcrRaises KeyboardInterrupt) =
    Raise KeyboardInterrupt /\
  extract_text_from_page_plain (OcrRaises KeyboardInterrupt) =
    Raise KeyboardInterrupt /\
  extract_text_from_page_boxes (OcrRaises RuntimeError) <>
    extract_text_from_page_boxes page_without_words.
Proof.
  split; [reflexivity|]. split; [reflexivity|].
  vm_compute. discriminate.
Qed.

(** Claim C10 (amended): both variants catch every exception derived
    from [Exception]: the word-box variant returns [("", None, None)] and
    the text variant [""]; in the text variant a failed page is then
    indistinguishable from a page without text, while in the word-box
    variant a page that was rendered returns its image and boxes;
    [KeyboardInterrupt] and [SystemExit] propagate. *)
Theorem C10_extract_catches_Exception e img text boxes :
  is_Exception e = true ->
  extract_text_from_page_boxes (OcrRaises e) = Ok ("", None, None) /\
  extract_text_from_page_plain (OcrRaises e) = Ok "" /\
  (Py.strip text = "" ->
     extract_text_from_page_plain (OcrReturns img text boxes) =
     extract_text_from_page_plain (OcrRaises e)) /\
  extract_text_from_page_boxes (OcrReturns img text boxes) =
    Ok (Py.strip text, Some img, Some boxes) /\
  (forall e', is_Exception e' = false ->
     extract_text_from_page_boxes (OcrRaises e') = Raise e' /\
     extract_text_from_page_plain (OcrRaises e') = Raise e').
Proof.
  intro He. cbn [extract_text_from_page_boxes extract_text_from_page_plain].
  rewrite He. split; [reflexivity|]. split; [reflexivity|].
  split; [intros Ht; rewrite Ht; reflexivity|]. split; [reflexivity|].
  intros e' He'. rewrite He'. split; reflexivity.
Qed.

Lemma C10_extract_catches_Exception_witness :
  extract_text_from_page_plain page_without_words =
  extract_text_from_page_plain (OcrRaises RuntimeError).
Proof.
  exact (proj1 (proj2 (proj2
    (C10_extract_catches_Exception RuntimeError letter_img "" [] eq_refl)))
    eq_refl).
Defined.

End ExtractClaims.

(** * Further properties of the scripts *)

Module StrFacts.
Import Py PyStr.

Abbreviation nl := "010"%char (only parsing).

Fixpoint all_space (s : string) : bool :=
  match s with
  | EmptyString => true
  | String c rest => is_space c && all_space rest
  end.

Fixpoint str_drop (n : nat) (s : string) : string :=
  match n, s with
  | O, _ => s
  | S _, EmptyString => EmptyString
  | S k, String _ rest => str_drop k rest
  end.

Lemma prefix_app (p s : string) : String.prefix p (p ++ s) = true.
Proof.
  induction p as [|c p IH]; [destruct s; reflexivity|]. simpl.
  destruct (ascii_dec c c); [exact IH | congruence].
Qed.

Lemma prefix_app_r (p a b : string) :
  String.prefix p a = true -> String.prefix p (a ++ b) = true.
Proof.
  revert a. induction p as [|c p IH]; intros a H;
    [destruct (a ++ b); reflexivity|].
  destruct a as [|d a]; [discriminate H|]. simpl in *.
  destruct (ascii_dec c d); [apply IH; exact H | discriminate H].
Qed.

Lemma all_space_list (s : string) :
  all_space s = forallb is_space (list_ascii_of_string s).
Proof.
  induction s as [|c s IH]; simpl; [reflexivity|]. rewrite IH. reflexivity.
Qed.

Lemma forallb_rev {A} (f : A -> bool) (l : list A) :
  forallb f (rev l) = forallb f l.
Proof.
  induction l as [|x l IH]; simpl; [reflexivity|].
  rewrite forallb_app, IH. simpl. rewrite andb_true_r, andb_comm. reflexivity.
Qed.

Lemma all_space_rev (s : string) : all_space (rev_string s) = all_space s.
Proof.
  rewrite !all_space_list. unfold rev_string.
  rewrite list_ascii_of_string_of_list_ascii. apply forallb_rev.
Qed.

Lemma all_space_lstrip (s : string) : all_space (lstrip s) = all_space s.
Proof.
  induction s as [|c s IH]; simpl; [reflexivity|].
  destruct (is_space c) eqn:E; simpl; [exact IH | rewrite E; reflexivity].
Qed.

Lemma lstrip_all_space (s : string) : all_space s = true -> lstrip s = "".
Proof.
  induction s as [|c s IH]; simpl; [reflexivity|].
  intro H. apply andb_true_iff in H. destruct H as [H1 H2].
  rewrite H1. apply IH. exact H2.
Qed.

Lemma rev_string_empty (s : string) : rev_string s = "" -> s = "".
Proof.
  unfold rev_string. intro H.
  apply (f_equal list_ascii_of_string) in H.
  rewrite list_ascii_of_string_of_list_ascii in H. simpl in H.
  destruct (list_ascii_of_string s) eqn:E.
  - rewrite <- (string_of_list_ascii_of_string s), E. reflexivity.
  - simpl in H. destruct (rev l); discriminate H.
Qed.

Lemma all_space_strip (s : string) : all_space (strip s) = all_space s.
Proof.
  unfold strip. rewrite all_space_rev, all_space_lstrip, all_space_rev,
    all_space_lstrip. reflexivity.
Qed.

(** [strip] gives the empty string exactly on blank strings. *)
Lemma strip_empty_iff (s : string) : strip s = "" <-> all_space s = true.
Proof.
  split.
  - intro H. rewrite <- all_space_strip, H. reflexivity.
  - intro H. unfold strip. rewrite (lstrip_all_space s H). reflexivity.
Qed.

Lemma prefix_nl2 (s : string) :
  String.prefix (String nl (String nl "")) s = true ->
  exists r, s = String nl (String nl r).
Proof.
  intro H. destruct s as [|a [|b r]]; cbn [String.prefix] in H;
    [discriminate H| |].
  - destruct (ascii_dec nl a); discriminate H.
  - destruct (ascii_dec nl a) as [<-|]; [|discriminate H].
    destruct (ascii_dec nl b) as [<-|]; [|discriminate H].
    exists r. reflexivity.
Qed.

(** [replace('\n\n', '\n')] keeps every character other than the newlines
    it merges: blankness is preserved. *)
Lemma replace_nl_all_space (k : nat) (s : string) :
  all_space (replace_aux k (String nl (String nl "")) (String nl "") s) =
  all_space (str_drop k s).
Proof.
  revert k. induction s as [|c rest IH]; intro k.
  - destruct k; reflexivity.
  - destruct k as [|k]; [|apply IH].
    cbn [replace_aux].
    destruct (String.prefix (String nl (String nl "")) (String c rest)) eqn:E.
    + apply prefix_nl2 in E. destruct E as [r E]. injection E as -> ->.
      cbn [String.append all_space]. rewrite IH. reflexivity.
    + cbn [all_space str_drop]. rewrite IH. reflexivity.
Qed.

Lemma replace_no_match (pat rep s : string) :
  contains pat s = false -> replace pat rep s = s.
Proof.
  unfold replace. induction s as [|c s IH]; [reflexivity|].
  cbn [contains]. intro H. apply orb_false_iff in H. destruct H as [H1 H2].
  cbn [replace_aux]. rewrite H1. rewrite (IH H2). reflexivity.
Qed.

Lemma lower_app (a b : string) : lower (a ++ b) = lower a ++ lower b.
Proof.
  induction a as [|c a IH]; simpl; [reflexivity|]. rewrite IH. reflexivity.
Qed.

Lemma rev_string_app (a b : string) :
  rev_string (a ++ b) = rev_string b ++ rev_string a.
Proof.
  unfold rev_string.
  assert (L : forall x y, list_ascii_of_string (x ++ y) =
                          (list_ascii_of_string x ++ list_ascii_of_string y)%list).
  { induction x as [|c x IHx]; intro y; simpl; [reflexivity|]. rewrite IHx.
    reflexivity. }
  assert (S' : forall x y, string_of_list_ascii (x ++ y)%list =
                           string_of_list_ascii x ++ string_of_list_ascii y).
  { induction x as [|c x IHx]; intro y; simpl; [reflexivity|]. rewrite IHx.
    reflexivity. }
  rewrite L, rev_app_distr, S'. reflexivity.
Qed.

Lemma endswith_app (p a b : string) :
  endswith p b = true -> endswith p (a ++ b) = true.
Proof.
  unfold endswith. rewrite rev_string_app. apply prefix_app_r.
Qed.

End StrFacts.

Module SearchableFacts.
Import Py PyStr Extract Searchable StrFacts.



(** [create_searchable_pdf] never prints the ["-"] ("no text found")
    status: a non-empty stripped OCR text always leaves a non-empty
    [clean_text]. *)
Theorem searchable_no_text_status_unreachable r text insert_ok :
  extract_text_from_page_plain r = Ok text ->
  page_status text insert_ok <> NoTextFound.
Proof.
  intro Hr. unfold page_status.
  destruct (String.eqb text "") eqn:E0; [discriminate|].
  destruct (String.eqb (clean_text text) "") eqn:E1;
    [|destruct insert_ok; discriminate].
  exfalso. apply String.eqb_eq in E1. apply String.eqb_neq in E0.
  unfold clean_text in E1. apply strip_empty_iff in E1.
  unfold replace in E1. rewrite replace_nl_all_space in E1.
  cbn [str_drop] in E1.
  destruct r as [e|img raw boxes]; cbn in Hr.
  - destruct (is_Exception e); [|discriminate Hr].
    injection Hr as <-. exact (E0 eq_refl).
  - injection Hr as <-. apply E0. apply strip_empty_iff.
    rewrite <- all_space_strip. exact E1.
Qed.

Lemma searchable_no_text_status_unreachable_witness :
  page_status (strip " page text ") true <> NoTextFound.
Proof.
  exact (searchable_no_text_status_unreachable
           (OcrReturns Samples.letter_img " page text " []) _ true eq_refl).
Defined.

End SearchableFacts.

Module CliFacts.
Import Py PyStr Cli StrFacts.

(** PDFc_SearchableandEditable.py never lists its own output as an
    input: whatever the base name, [editable_<base>.pdf] is filtered out. *)
Theorem editable_output_not_candidate (base_name : string) :
  editable_candidate (editable_output_name base_name) = false.
Proof.
  unfold editable_candidate, editable_output_name, startswith.
  rewrite (prefix_app "editable_"). rewrite andb_false_r. reflexivity.
Qed.

(** PDFc_Searchable_only.py has no such filter: the output
    [searchable_<file>] of every file it lists is listed on the next run. *)
Theorem searchable_output_is_candidate (f : string) :
  searchable_candidate f = true ->
  searchable_candidate (searchable_output_name f) = true.
Proof.
  unfold searchable_candidate, searchable_output_name.
  rewrite lower_app. apply endswith_app.
Qed.

Lemma searchable_output_is_candidate_witness :
  searchable_candidate "scan.pdf" = true /\
  searchable_candidate (searchable_output_name "scan.pdf") = true.
Proof.
  split; [reflexivity|].
  exact (searchable_output_is_candidate "scan.pdf" eq_refl).
Defined.

(** PDFc_Searchable_only.py lists a file whose extension is written in
    capitals, but [replace('.pdf', ...)] is case-sensitive: the text file
    of method 2 and the chunk folder of method 3 then get the input PDF's
    own path. *)
Theorem upper_case_extension_output_is_input (f : string) :
  searchable_candidate f = true ->
  contains ".pdf" f = false ->
  extracted_txt_name f = f /\ chunk_folder_name f = f.
Proof.
  intros _ H. unfold extracted_txt_name, chunk_folder_name.
  rewrite !replace_no_match by exact H. split; reflexivity.
Qed.

Lemma upper_case_extension_output_is_input_witness :
  extracted_txt_name "SCAN.PDF" = "SCAN.PDF".
Proof.
  exact (proj1 (upper_case_extension_output_is_input "SCAN.PDF"
                  eq_refl eq_refl)).
Defined.

End CliFacts.

Module ChunkLoopFacts.
Import Chunks ChunkLoop.
Local Open Scope nat_scope.
Local Open Scope list_scope.

Lemma chunk_loop_spec succeeds ranges cp :
  map cr_range (fst (chunk_loop succeeds ranges cp)) = ranges /\
  snd (chunk_loop succeeds ranges cp) =
    cp + List.length (filter succeeds ranges) /\
  (forall k c, nth_error (fst (chunk_loop succeeds ranges cp)) k = Some c ->
     cr_num c = cp + 1 + List.length (filter succeeds (firstn k ranges)) /\
     cr_success c = succeeds (cr_range c)).
Proof.
  revert cp. induction ranges as [|r rest IH]; intro cp.
  - simpl. split; [reflexivity|]. split; [lia|].
    intros k c H. destruct k; discriminate H.
  - simpl.
    destruct (IH (if succeeds r then cp + 1 else cp)) as [H1 [H2 H3]].
    destruct (chunk_loop succeeds rest (if succeeds r then cp + 1 else cp))
      as [runs final] eqn:E.
    simpl in H1, H2, H3. simpl. split; [|split].
    + f_equal. exact H1.
    + rewrite H2. destruct (succeeds r); simpl; lia.
    + intros k c Hk. destruct k as [|k].
      * simpl in Hk. injection Hk as <-. simpl. split; [lia|reflexivity].
      * simpl in Hk. destruct (H3 k c Hk) as [Hn Hs].
        split; [|exact Hs]. rewrite Hn. simpl.
        destruct (succeeds r); simpl; lia.
Qed.

Lemma firstn_S_nth_error {A} (l : list A) k x :
  nth_error l k = Some x -> firstn (S k) l = firstn k l ++ [x].
Proof.
  revert l. induction k as [|k IH]; intros l H; destruct l as [|y l];
    try discriminate H.
  - simpl in H. injection H as ->. reflexivity.
  - simpl in H. change (y :: firstn (S k) l = y :: firstn k l ++ [x]).
    rewrite (IH l H). reflexivity.
Qed.

Lemma chunk_ranges_pages fuel start total ppc :
  0 < ppc -> start <= total -> total - start <= fuel * ppc ->
  List.concat (map chunk_pages (chunk_ranges fuel start total ppc)) =
    seq start (total - start).
Proof.
  intro Hp. revert start. induction fuel as [|f IH]; intros start Hs Hf.
  - simpl. replace (total - start) with 0 by lia. reflexivity.
  - simpl. destruct (Nat.ltb start total) eqn:Hlt.
    + apply Nat.ltb_lt in Hlt. cbn [map List.concat chunk_pages].
      destruct (Nat.le_gt_cases (start + ppc) total) as [Hle|Hgt].
      * rewrite Nat.min_l by lia. rewrite IH by lia.
        replace (total - start) with (ppc + (total - (start + ppc))) by lia.
        rewrite seq_app. f_equal. f_equal. lia.
      * rewrite Nat.min_r by lia.
        rewrite (ChunkClaims.chunk_ranges_done f) by lia. rewrite app_nil_r.
        reflexivity.
    + apply Nat.ltb_ge in Hlt. replace (total - start) with 0 by lia.
      reflexivity.
Qed.

(** [process_in_chunks] copies every page of the document exactly once
    and in order: the pages [insert_pdf] copies into the successive
    chunks, concatenated, are [0, 1, ..., total_pages - 1]. *)
Theorem process_in_chunks_pages_partition total_pages pages_per_chunk :
  0 < pages_per_chunk ->
  List.concat (map chunk_pages (chunks total_pages pages_per_chunk)) =
    seq 0 total_pages.
Proof.
  intro Hp. unfold chunks. rewrite chunk_ranges_pages by nia.
  rewrite Nat.sub_0_r. reflexivity.
Qed.

Lemma process_in_chunks_pages_partition_witness :
  0 < 50 /\
  List.concat (map chunk_pages (chunks 120 50)) = seq 0 120.
Proof.
  split; [lia|]. apply process_in_chunks_pages_partition. lia.
Defined.

(** In [process_in_chunks] the chunk at position [k] gets the number
    [1 + (number of successful chunks before it)], the loop visits every
    range once, and the final [chunks_processed] is the number of
    successful chunks. *)
Theorem process_in_chunks_numbering succeeds total_pages pages_per_chunk :
  let '(runs, chunks_processed) :=
    process_in_chunks succeeds total_pages pages_per_chunk in
  map cr_range runs = chunks total_pages pages_per_chunk /\
  chunks_processed =
    List.length (filter succeeds (chunks total_pages pages_per_chunk)) /\
  (forall k c, nth_error runs k = Some c ->
     cr_num c = 1 + List.length
       (filter succeeds (firstn k (chunks total_pages pages_per_chunk)))).
Proof.
  unfold process_in_chunks.
  destruct (chunk_loop_spec succeeds (chunks total_pages pages_per_chunk) 0)
    as [H1 [H2 H3]].
  destruct (chunk_loop succeeds (chunks total_pages pages_per_chunk) 0)
    as [runs n].
  simpl in H1, H2, H3. split; [exact H1|]. split; [exact H2|].
  intros k c Hk. apply (H3 k c Hk).
Qed.

(** When a chunk fails, the next chunk gets the same [chunk_num], so it
    is saved under the same [chunk_{chunk_num:03d}.pdf] and
    [searchable_chunk_{chunk_num:03d}.pdf] names. *)
Theorem failed_chunk_number_reused succeeds total_pages pages_per_chunk k c1 c2 :
  nth_error (fst (process_in_chunks succeeds total_pages pages_per_chunk)) k =
    Some c1 ->
  nth_error (fst (process_in_chunks succeeds total_pages pages_per_chunk)) (S k) =
    Some c2 ->
  cr_success c1 = false ->
  cr_num c2 = cr_num c1.
Proof.
  unfold process_in_chunks. intros H1 H2 Hf.
  destruct (chunk_loop_spec succeeds (chunks total_pages pages_per_chunk) 0)
    as [Hr [_ H3]].
  destruct (H3 k c1 H1) as [N1 S1]. destruct (H3 (S k) c2 H2) as [N2 _].
  rewrite N1, N2.
  assert (Hk : nth_error (chunks total_pages pages_per_chunk) k =
               Some (cr_range c1)).
  { rewrite <- Hr. rewrite nth_error_map, H1. reflexivity. }
  rewrite (firstn_S_nth_error _ _ _ Hk).
  rewrite filter_app. simpl. rewrite <- S1, Hf. simpl.
  rewrite app_nil_r. reflexivity.
Qed.

Lemma failed_chunk_number_reused_witness :
  let ok := fun r : nat * nat => negb (fst r =? 0) in
  nth_error (fst (process_in_chunks ok 120 50)) 0 =
    Some {| cr_num := 1; cr_range := (0, 50); cr_success := false |} /\
  nth_error (fst (process_in_chunks ok 120 50)) 1 =
    Some {| cr_num := 1; cr_range := (50, 100); cr_success := true |} /\
  cr_num {| cr_num := 1; cr_range := (50, 100); cr_success := true |} =
    cr_num {| cr_num := 1; cr_range := (0, 50); cr_success := false |}.
Proof.
  intro ok. split; [vm_compute; reflexivity|]. split; [vm_compute; reflexivity|].
  apply (failed_chunk_number_reused ok 120 50 0); vm_compute; reflexivity.
Defined.

End ChunkLoopFacts.

Module TwoNameLoopFacts.
Import Py Placement Extract TwoNameLoops.

(** No page's OCR raises an exception outside [Exception]. *)
Definition no_base_exception (runs : list ocr_run) : Prop :=
  Forall (fun r => match r with
                   | OcrRaises e => is_Exception e = true
                   | OcrReturns _ _ _ => True
                   end) runs.

Lemma unpack_extract_tuple r :
  (match r with OcrRaises e => is_Exception e = true | _ => True end) ->
  exists t, extract_tuple r = Ok t /\ unpack2 t = Raise ValueError.
Proof.
  destruct r as [e|img text boxes]; intro H; unfold extract_tuple; simpl.
  - rewrite H. eexists. split; reflexivity.
  - eexists. split; reflexivity.
Qed.

(** [create_pdf_with_reportlab] and [create_text_only_pdf_clean] unpack
    the 3-tuple of [extract_text_from_page] into two names, which raises
    [ValueError] on every page; [except Exception] then emits a blank
    page. Whatever the rest of the loop body would draw, every page of
    the output is blank and [successful_pages] stays 0. *)
Theorem two_name_unpack_blank_pages compose runs page_num :
  no_base_exception runs ->
  showpage_loop compose page_num runs =
    Ok (repeat BlankPage (List.length runs), 0%nat).
Proof.
  intro H. revert page_num. induction H as [|r rest Hr Hrest IH]; intro page_num.
  - reflexivity.
  - simpl. destruct (unpack_extract_tuple r Hr) as [t [E1 E2]].
    rewrite E1, E2. simpl. rewrite IH. reflexivity.
Qed.

Lemma two_name_unpack_blank_pages_witness :
  let runs := [OcrReturns Samples.letter_img "Hello" [Samples.wA];
               OcrRaises RuntimeError] in
  no_base_exception runs /\
  showpage_loop (fun _ _ _ => Some (ComposedPage 0)) 0 runs =
    Ok ([BlankPage; BlankPage], 0%nat).
Proof.
  intro runs. assert (H : no_base_exception runs).
  { repeat constructor. }
  split; [exact H|].
  exact (two_name_unpack_blank_pages _ runs 0 H).
Defined.



(** [extract_to_text_file] unpacks the 3-tuple into two names as well:
    every page lands in [except Exception: continue], [all_text] stays
    empty, so the text file is written empty and [successful_pages] is
    0, whatever the pages contain. *)
Theorem text_file_always_empty segments runs page_num :
  no_base_exception runs ->
  exists all_text,
    text_file_loop segments page_num runs = Ok (all_text, 0%nat) /\
    join_newline all_text = "".
Proof.
  intro H. exists []. split; [|reflexivity]. revert page_num.
  induction H as [|r rest Hr Hrest IH]; intro page_num.
  - reflexivity.
  - simpl. destruct (unpack_extract_tuple r Hr) as [t [E1 E2]].
    rewrite E1, E2. simpl. rewrite IH. reflexivity.
Qed.

Lemma text_file_always_empty_witness :
  no_base_exception [OcrReturns Samples.letter_img "Some text" []] /\
  exists all_text,
    text_file_loop (fun _ _ => ["PAGE 1"]) 0
      [OcrReturns Samples.letter_img "Some text" []] = Ok (all_text, 0%nat) /\
    join_newline all_text = "".
Proof.
  assert (H : no_base_exception [OcrReturns Samples.letter_img "Some text" []])
    by repeat constructor.
  split; [exact H|]. exact (text_file_always_empty _ _ 0 H).
Defined.

End TwoNameLoopFacts.

Module EditableFacts.
Import Py Placement Extract Editable TwoNameLoopFacts.

(** The page [create_editable_pdf] makes of one OCR run. *)
Definition page_of (dpi : Z) (r : ocr_run) : list out_page :=
  match r with
  | OcrRaises _ => []
  | OcrReturns img text boxes =>
      if String.eqb (strip text) "" then [] else [compose_page dpi img boxes]
  end.

(** When no page raises outside [Exception], [create_editable_pdf]
    keeps, in order, exactly the pages whose OCR text is non-blank after
    [strip]; a page whose rendering or OCR raised, or whose text is
    blank, is left out of the output, and the output is written only if
    one page remains. *)
Theorem create_editable_pdf_pages dpi runs :
  no_base_exception runs ->
  create_editable_pdf dpi runs =
    Ok (match flat_map (page_of dpi) runs with
        | [] => None
        | pages => Some pages
        end).
Proof.
  intro H. unfold create_editable_pdf.
  assert (E : page_loop dpi runs = Ok (flat_map (page_of dpi) runs)).
  { induction H as [|r rest Hr Hrest IH]; [reflexivity|].
    simpl. rewrite IH. destruct r as [e|img text boxes]; simpl.
    - simpl in Hr. rewrite Hr. reflexivity.
    - destruct (String.eqb (strip text) ""); reflexivity. }
  rewrite E. destruct (flat_map (page_of dpi) runs); reflexivity.
Qed.

Lemma create_editable_pdf_pages_witness :
  no_base_exception [Samples.page_with_word; OcrRaises MemoryError;
                     Samples.page_without_words] /\
  create_editable_pdf 72 [Samples.page_with_word; OcrRaises MemoryError;
                          Samples.page_without_words] =
    Ok (Some [compose_page 72 Samples.letter_img [Samples.wA]]).
Proof.
  assert (H : no_base_exception [Samples.page_with_word; OcrRaises MemoryError;
                                 Samples.page_without_words])
    by (repeat constructor).
  split; [exact H|].
  rewrite (create_editable_pdf_pages 72 _ H). reflexivity.
Defined.

End EditableFacts.

Module WrapFacts.
Import Py Layout.

(** No whitespace character in a string. *)
Fixpoint no_space (s : string) : bool :=
  match s with
  | EmptyString => true
  | String c rest => negb (is_space c) && no_space rest
  end.

Definition good_word (w : string) : Prop := w <> "" /\ no_space w = true.

Lemma str_app_assoc (a b c : string) : (a ++ b) ++ c = a ++ (b ++ c).
Proof. induction a as [|x a IH]; simpl; [reflexivity|]. rewrite IH. reflexivity. Qed.

Lemma str_app_nil (a : string) : a ++ "" = a.
Proof. induction a as [|x a IH]; simpl; [reflexivity|]. rewrite IH. reflexivity. Qed.

Lemma no_space_app a b : no_space (a ++ b) = no_space a && no_space b.
Proof.
  induction a as [|x a IH]; simpl; [reflexivity|].
  rewrite IH. apply andb_assoc.
Qed.

Lemma str_app_neq_empty a b : a <> "" -> a ++ b <> "".
Proof. destruct a; simpl; [contradiction|discriminate]. Qed.

Lemma split_acc_word w cur s :
  no_space w = true -> split_acc cur (w ++ s) = split_acc (cur ++ w) s.
Proof.
  revert cur. induction w as [|c w IH]; intros cur H.
  - simpl. rewrite str_app_nil. reflexivity.
  - simpl in H. apply andb_prop in H as [Hc Hw]. apply negb_true_iff in Hc.
    simpl. rewrite Hc. rewrite IH by exact Hw.
    rewrite str_app_assoc. reflexivity.
Qed.

Lemma split_ws_join ws :
  Forall good_word ws -> split_ws (join_space ws) = ws.
Proof.
  unfold split_ws. induction 1 as [|w ws [Hne Hw] Hws IH]; [reflexivity|].
  destruct ws as [|w2 ws].
  - simpl. rewrite <- (str_app_nil w). rewrite split_acc_word by exact Hw.
    simpl. rewrite str_app_nil.
    destruct (String.eqb_spec w ""); [contradiction|reflexivity].
  - change (join_space (w :: w2 :: ws)) with (w ++ " " ++ join_space (w2 :: ws)).
    rewrite split_acc_word by exact Hw. simpl.
    destruct (String.eqb_spec w ""); [contradiction|].
    f_equal. exact IH.
Qed.

Lemma split_acc_good cur s :
  no_space cur = true -> Forall good_word (split_acc cur s).
Proof.
  revert cur. induction s as [|c s IH]; intros cur H; simpl.
  - destruct (String.eqb_spec cur ""); constructor; [split; assumption|constructor].
  - destruct (is_space c) eqn:Ec.
    + destruct (String.eqb_spec cur "").
      * apply IH. reflexivity.
      * constructor; [split; assumption|]. apply IH. reflexivity.
    + apply IH. rewrite no_space_app, H. simpl. rewrite Ec. reflexivity.
Qed.

Lemma split_ws_good s : Forall good_word (split_ws s).
Proof. apply split_acc_good. reflexivity. Qed.

(** A line group of the wrap: non-empty, and fitting unless it is a
    single word. *)
Definition good_line (fits : string -> bool) (g : list string) : Prop :=
  g <> [] /\ (fits (join_space g) = true \/ exists w, g = [w]).

Lemma wrap_loop_groups fits words lines cur :
  (cur = [] \/ good_line fits cur) ->
  let '(L, C) := wrap_loop fits words lines cur in
  exists groups,
    L = (lines ++ map join_space groups)%list /\
    (List.concat groups ++ C = cur ++ words)%list /\
    Forall (good_line fits) groups /\
    (C = [] \/ good_line fits C).
Proof.
  revert lines cur. induction words as [|word rest IH]; intros lines cur Hc.
  - simpl. exists []. rewrite app_nil_r. simpl.
    split; [reflexivity|]. split; [rewrite app_nil_r; reflexivity|].
    split; [constructor|exact Hc].
  - simpl. destruct (fits (join_space (cur ++ [word]))) eqn:Ef.
    + specialize (IH lines (cur ++ [word])%list).
      destruct (wrap_loop fits rest lines (cur ++ [word])) as [L C].
      destruct IH as [groups [H1 [H2 [H3 H4]]]].
      { right. split; [destruct cur; discriminate|left; exact Ef]. }
      exists groups. split; [exact H1|]. split; [|split; assumption].
      rewrite H2, <- app_assoc. reflexivity.
    + destruct cur as [|x cur'] eqn:Ecur.
      * specialize (IH (lines ++ [])%list [word]).
        destruct (wrap_loop fits rest (lines ++ []) [word]) as [L C].
        destruct IH as [groups [H1 [H2 [H3 H4]]]].
        { right. split; [discriminate|right; exists word; reflexivity]. }
        exists groups. rewrite app_nil_r in H1.
        split; [exact H1|]. split; [exact H2|]. split; assumption.
      * specialize (IH (lines ++ [join_space (x :: cur')])%list [word]).
        destruct (wrap_loop fits rest (lines ++ [join_space (x :: cur')]) [word])
          as [L C].
        destruct IH as [groups [H1 [H2 [H3 H4]]]].
        { right. split; [discriminate|right; exists word; reflexivity]. }
        exists ((x :: cur') :: groups). split; [|split; [|split]].
        -- rewrite H1, <- app_assoc. reflexivity.
        -- simpl. rewrite <- app_assoc, H2. reflexivity.
        -- constructor; [|exact H3].
           destruct Hc as [Hc|Hc]; [discriminate|exact Hc].
        -- exact H4.
Qed.

Lemma wrap_groups fits words :
  exists groups,
    wrap fits words = map join_space groups /\
    List.concat groups = words /\
    Forall (good_line fits) groups.
Proof.
  unfold wrap. pose proof (wrap_loop_groups fits words [] [] (or_introl eq_refl)) as H.
  destruct (wrap_loop fits words [] []) as [L C].
  destruct H as [groups [H1 [H2 [H3 H4]]]]. simpl in H1, H2. subst L.
  destruct C as [|c C'].
  - exists groups. rewrite app_nil_r in H2. split; [reflexivity|]. split; assumption.
  - exists (groups ++ [c :: C'])%list. split; [|split].
    + rewrite map_app. reflexivity.
    + rewrite concat_app. simpl. rewrite app_nil_r. exact H2.
    + apply Forall_app. split; [exact H3|].
      constructor; [|constructor].
      destruct H4 as [H4|H4]; [discriminate|exact H4].
Qed.

(** The greedy wrap of [create_image_with_selectable_text] and
    [create_text_only_pdf_clean], whatever the width test: splitting the
    lines again gives back the words of the text, in order (no word is
    lost, duplicated or cut); no line is empty; and a line fails the
    width test only when it is a single word too wide on its own. *)
Theorem greedy_wrap_spec fits text :
  let words := split_ws text in
  let lines := wrap fits words in
  List.concat (map split_ws lines) = words /\
  Forall (fun l => l <> "" /\ (fits l = true \/ In l words)) lines.
Proof.
  intros words lines.
  destruct (wrap_groups fits words) as [groups [H1 [H2 H3]]].
  assert (Hg : Forall (Forall good_word) groups).
  { apply Forall_forall. intros g Hg. apply Forall_forall. intros w Hw.
    pose proof (split_ws_good text) as G. rewrite Forall_forall in G.
    apply G. fold words. rewrite <- H2. apply in_concat. exists g. split; assumption. }
  subst lines. rewrite H1. split.
  - rewrite map_map. rewrite <- H2. f_equal.
    clear H1 H2 H3. induction Hg as [|g gs Hg Hgs IH]; [reflexivity|].
    simpl. rewrite split_ws_join by exact Hg. rewrite IH. reflexivity.
  - apply Forall_map. apply Forall_forall. intros g Hin.
    rewrite Forall_forall in H3, Hg. destruct (H3 g Hin) as [Hne Hfit].
    pose proof (Hg g Hin) as Gw. split.
    + destruct g as [|w g']; [contradiction|]. inversion Gw as [|? ? [Hw _] _]; subst.
      destruct g'; simpl; [exact Hw|]. apply str_app_neq_empty. exact Hw.
    + destruct Hfit as [Hf|[w ->]]; [left; exact Hf|right].
      simpl. rewrite <- H2. apply in_concat. exists [w]. split; [exact Hin|left; reflexivity].
Qed.

End WrapFacts.

Module OverlayFacts.
Import Py Extract Layout.

Lemma draw_text_lines_spec lines y lh H :
  (0 < lh)%Z ->
  (forall i y' l, nth_error (draw_text_lines y lh H lines) i = Some (y', l) ->
     y' = (y + Z.of_nat i * lh)%Z /\ (y' + lh < H - 50)%Z /\
     nth_error lines i = Some l) /\
  (forall i, (i < List.length lines)%nat ->
     ((i < List.length (draw_text_lines y lh H lines))%nat <->
      (y + (Z.of_nat i + 1) * lh < H - 50)%Z)).
Proof.
  intro Hlh. revert y. induction lines as [|l rest IH]; intro y.
  - simpl. split; [intros [|i]; discriminate|intros i Hi; simpl in Hi; lia].
  - simpl. destruct (Z.ltb_spec (y + lh) (H - 50)) as [Hfit|Hfull].
    + destruct (IH (y + lh)%Z) as [IH1 IH2]. split.
      * intros [|i] y' l' Hn; simpl in Hn.
        -- injection Hn as <- <-. split; [lia|]. split; [lia|reflexivity].
        -- destruct (IH1 i y' l' Hn) as [A [B C]].
           rewrite Nat2Z.inj_succ.
           split; [nia|]. split; [exact B|exact C].
      * intros [|i] Hi; cbn [List.length].
        -- split; intro; lia.
        -- specialize (IH2 i ltac:(simpl in Hi; lia)).
           rewrite <- Nat.succ_lt_mono, IH2, Nat2Z.inj_succ.
           split; intro; nia.
    + split.
      * intros [|i]; discriminate.
      * intros i _. simpl. split; [lia|]. intro. nia.
Qed.

(** [create_image_with_selectable_text]: the font size lies in
    [12..24]; line [i] of the wrapped text is drawn at
    [y_pos = 50 + i * (font_size + 5)], with its line box ending above
    [height - 50]; and line [i] is drawn exactly when
    [50 + (i + 1) * (font_size + 5) < height - 50], the lines after the
    first that does not fit being dropped. *)
Theorem overlay_layout textlength font_ok img ocr_text :
  let font_size := overlay_font_size (img_height img) in
  let lines := overlay_lines textlength img ocr_text in
  let drawn := overlay_text textlength font_ok img ocr_text in
  (12 <= font_size <= 24)%Z /\
  (forall i y l, nth_error drawn i = Some (y, l) ->
     y = (50 + Z.of_nat i * (font_size + 5))%Z /\
     (y + (font_size + 5) < img_height img - 50)%Z /\
     nth_error lines i = Some l) /\
  (ocr_text <> "" -> font_ok = true ->
   forall i, (i < List.length lines)%nat ->
     ((i < List.length drawn)%nat <->
      (50 + (Z.of_nat i + 1) * (font_size + 5) < img_height img - 50)%Z)).
Proof.
  intros font_size lines drawn.
  assert (Hfs : (12 <= font_size <= 24)%Z).
  { subst font_size. unfold overlay_font_size. lia. }
  destruct (draw_text_lines_spec lines 50 (font_size + 5) (img_height img)
              ltac:(lia)) as [D1 D2].
  split; [exact Hfs|]. split.
  - intros i y l Hn. subst drawn. unfold overlay_text in Hn.
    destruct (negb (String.eqb ocr_text "") && font_ok).
    + exact (D1 i y l Hn).
    + destruct i; discriminate.
  - intros Hne Hok. subst drawn. unfold overlay_text.
    replace (negb (String.eqb ocr_text "") && font_ok) with true.
    + exact D2.
    + rewrite Hok. destruct (String.eqb_spec ocr_text ""); [contradiction|reflexivity].
Qed.

Lemma overlay_layout_witness :
  let img := {| img_width := 300; img_height := 200 |} in
  let tl := fun t => inject_Z (Z.of_nat (String.length t) * 10) in
  "one two three four five six" <> "" /\ true = true /\
  ((0 < List.length (overlay_text tl true img "one two three four five six"))%nat <->
   (50 + (Z.of_nat 0 + 1) * (overlay_font_size (img_height img) + 5) <
      img_height img - 50)%Z).
Proof.
  intros img tl. split; [discriminate|]. split; [reflexivity|].
  exact (proj2 (proj2 (overlay_layout tl true img "one two three four five six"))
           ltac:(discriminate) eq_refl 0%nat ltac:(vm_compute; lia)).
Defined.

Lemma py_min_cases (a b : Q) :
  (py_min a b == a \/ py_min a b == b) /\ py_min a b <= a /\ py_min a b <= b.
Proof.
  unfold py_min. destruct (Qltb b a) eqn:E.
  - apply PlacementFacts.Qltb_iff in E. split; [right; reflexivity|lra].
  - apply PlacementFacts.Qltb_false in E. split; [left; reflexivity|lra].
Qed.

(** [create_pdf_with_reportlab]: for a rendered page of positive size,
    the image drawn on the letter page keeps its aspect ratio, is
    centered, leaves a margin on every side, and fills 95% of the page
    in the limiting dimension. *)
Theorem fit_on_letter_spec w h :
  (0 < w)%Z -> (0 < h)%Z ->
  let '(x, y, new_width, new_height) := fit_on_letter w h in
  new_width * inject_Z h == new_height * inject_Z w /\
  x + new_width + x == 612 /\ y + new_height + y == 792 /\
  0 < x /\ 0 < y /\
  new_width <= 612 * (95 # 100) /\ new_height <= 792 * (95 # 100) /\
  (new_width == 612 * (95 # 100) \/ new_height == 792 * (95 # 100)).
Proof.
  intros Hw Hh. unfold fit_on_letter.
  set (W := inject_Z w). set (H := inject_Z h).
  assert (HW : 0 < W) by (subst W; unfold Qlt; simpl; lia).
  assert (HH : 0 < H) by (subst H; unfold Qlt; simpl; lia).
  assert (Ea : W * (612 / W) == 612) by (field; lra).
  assert (Eb : H * (792 / H) == 792) by (field; lra).
  assert (Pa : 0 < 612 / W) by (apply Qlt_shift_div_l; lra).
  assert (Pb : 0 < 792 / H) by (apply Qlt_shift_div_l; lra).
  destruct (py_min_cases (612 / W) (792 / H)) as [Hm [Hma Hmb]].
  set (m := py_min (612 / W) (792 / H)) in *.
  set (a := 612 / W) in *. set (b := 792 / H) in *.
  clearbody m a b.
  assert (Hwm : W * m <= 612) by nra.
  assert (Hhm : H * m <= 792) by nra.
  split; [ring|]. split; [field|]. split; [field|].
  split; [|split; [|split; [|split]]].
  - apply Qlt_shift_div_l; [lra|]. nra.
  - apply Qlt_shift_div_l; [lra|]. nra.
  - nra.
  - nra.
  - destruct Hm as [Hm|Hm]; [left|right]; rewrite Hm; [rewrite Qmult_assoc, Ea|rewrite Qmult_assoc, Eb]; reflexivity.
Qed.

Lemma fit_on_letter_spec_witness :
  (0 < 1700)%Z /\ (0 < 2200)%Z /\
  let '(x, y, new_width, new_height) := fit_on_letter 1700 2200 in
  new_width * inject_Z 2200 == new_height * inject_Z 1700 /\
  x + new_width + x == 612 /\ y + new_height + y == 792 /\
  0 < x /\ 0 < y /\
  new_width <= 612 * (95 # 100) /\ new_height <= 792 * (95 # 100) /\
  (new_width == 612 * (95 # 100) \/ new_height == 792 * (95 # 100)).
Proof.
  split; [lia|]. split; [lia|].
  exact (fit_on_letter_spec 1700 2200 ltac:(lia) ltac:(lia)).
Defined.

End OverlayFacts.

Module TextOnlyFacts.
Import Py Layout.

(** [xs] is [ys] with some elements left out. *)
Inductive subseq {A : Type} : list A -> list A -> Prop :=
| subseq_nil : subseq [] []
| subseq_keep x xs ys : subseq xs ys -> subseq (x :: xs) (x :: ys)
| subseq_drop x xs ys : subseq xs ys -> subseq xs (x :: ys).

Lemma subseq_app {A} (a b c d : list A) :
  subseq a c -> subseq b d -> subseq (a ++ b) (c ++ d).
Proof.
  induction 1; intro Hbd; simpl; [exact Hbd| |]; constructor; auto.
Qed.

Lemma body_lines_app a b : body_lines (a ++ b) = (body_lines a ++ body_lines b)%list.
Proof. unfold body_lines. apply flat_map_app. Qed.

Lemma page_breaks_app a b : page_breaks (a ++ b) = (page_breaks a + page_breaks b)%nat.
Proof. unfold page_breaks. rewrite filter_app, length_app. reflexivity. Qed.

Lemma top_margin_30 : top_margin - 30 == 690.
Proof. unfold top_margin. reflexivity. Qed.

Lemma draw_paragraph_lines_count page_num lh st lines :
  0 <= lh -> y_pos st <= 690 ->
  let '(ops, st') := draw_paragraph_lines page_num lh st lines in
  (List.length (body_lines ops) + page_breaks ops = List.length lines)%nat /\
  subseq (body_lines ops) lines /\
  y_pos st' <= 690.
Proof.
  intro Hlh. revert st. induction lines as [|line rest IH]; intros st Hy.
  - simpl. split; [reflexivity|]. split; [constructor|exact Hy].
  - simpl. destruct (Qltb bottom_margin (y_pos st)) eqn:Eb.
    + specialize (IH {| font_name := font_name st; font_size := font_size st;
                        y_pos := y_pos st - lh |} ltac:(simpl; lra)).
      destruct (draw_paragraph_lines page_num lh _ rest) as [ops st'].
      destruct IH as [H1 [H2 H3]].
      assert (Et : Qltb (y_pos st) top_margin = true).
      { apply PlacementFacts.Qltb_iff. unfold top_margin. lra. }
      unfold body_lines, page_breaks in *. simpl. rewrite ?Et. simpl.
      split; [lia|]. split; [constructor; exact H2|exact H3].
    + specialize (IH {| font_name := "Helvetica-Bold"; font_size := 14;
                        y_pos := top_margin - 30 |}
                    ltac:(simpl; rewrite top_margin_30; lra)).
      destruct (draw_paragraph_lines page_num lh _ rest) as [ops st'].
      destruct IH as [H1 [H2 H3]].
      assert (Et : Qltb top_margin top_margin = false).
      { apply PlacementFacts.Qltb_false. lra. }
      unfold body_lines, page_breaks in *. simpl. rewrite ?Et. simpl.
      split; [lia|]. split; [constructor; exact H2|exact H3].
Qed.

Lemma paragraph_font_lh p :
  let '(_, _, lh) := paragraph_font p in 0 <= lh.
Proof. unfold paragraph_font. destruct (Reflow.is_header p); lra. Qed.

Lemma draw_paragraphs_count sw page_num st paragraphs :
  y_pos st <= 690 ->
  let '(ops, st') := draw_paragraphs sw page_num st paragraphs in
  let lines := flat_map (fun p => if String.eqb (strip p) "" then []
                                  else paragraph_lines sw p) paragraphs in
  (List.length (body_lines ops) + page_breaks ops = List.length lines)%nat /\
  subseq (body_lines ops) lines /\
  y_pos st' <= 690.
Proof.
  revert st. induction paragraphs as [|p rest IH]; intros st Hy.
  - simpl. split; [reflexivity|]. split; [constructor|exact Hy].
  - cbn [draw_paragraphs flat_map].
    assert (P : let '(ops1, st1) := draw_paragraph sw page_num st p in
                (List.length (body_lines ops1) + page_breaks ops1 =
                   List.length (if String.eqb (strip p) "" then []
                                else paragraph_lines sw p))%nat /\
                subseq (body_lines ops1)
                  (if String.eqb (strip p) "" then [] else paragraph_lines sw p) /\
                y_pos st1 <= 690).
    { unfold draw_paragraph. destruct (String.eqb (strip p) "").
      - split; [reflexivity|]. split; [constructor|exact Hy].
      - pose proof (paragraph_font_lh p) as Hlh.
        destruct (paragraph_font p) as [[fname fsize] lh].
        pose proof (draw_paragraph_lines_count page_num lh
                      {| font_name := fname; font_size := fsize; y_pos := y_pos st |}
                      (paragraph_lines sw p) Hlh Hy) as D.
        destruct (draw_paragraph_lines page_num lh _ (paragraph_lines sw p))
          as [ops st'].
        destruct D as [D1 [D2 D3]]. split; [exact D1|]. split; [exact D2|].
        simpl. lra. }
    destruct (draw_paragraph sw page_num st p) as [ops1 st1].
    destruct P as [P1 [P2 P3]].
    specialize (IH st1 P3).
    destruct (draw_paragraphs sw page_num st1 rest) as [ops2 st2].
    destruct IH as [I1 [I2 I3]].
    rewrite body_lines_app, page_breaks_app, !length_app.
    split; [lia|]. split; [apply subseq_app; assumption|exact I3].
Qed.

(** [create_text_only_pdf_clean], the drawing of one page's text: each
    line the paragraphs wrap into is either drawn as body text, in
    order, or is the line at which a page break happens; the line that
    meets [y_pos <= bottom_margin] is never drawn, so the body text
    drawn has as many lines fewer than the wrapped text as there are
    page breaks. *)
Theorem text_page_lines_drawn_or_lost string_width page_num text :
  let ops := render_text_page string_width page_num text in
  let lines := page_lines string_width text in
  (List.length (body_lines ops) + page_breaks ops = List.length lines)%nat /\
  subseq (body_lines ops) lines.
Proof.
  intros ops lines. subst ops lines. unfold render_text_page, page_lines.
  pose proof (draw_paragraphs_count string_width page_num
                {| font_name := "Helvetica-Bold"; font_size := 14;
                   y_pos := top_margin - 30 |}
                (Reflow.reflow_lines (split_newline text))
                ltac:(simpl; rewrite top_margin_30; lra)) as D.
  destruct (draw_paragraphs string_width page_num _ _) as [ops st'].
  destruct D as [D1 [D2 _]].
  assert (Et : Qltb top_margin top_margin = false).
  { apply PlacementFacts.Qltb_false. lra. }
  unfold body_lines, page_breaks in *. simpl. rewrite ?Et. simpl.
  split; assumption.
Qed.

Lemma draw_paragraph_lines_bold page_num lh st lines :
  font_name st = "Helvetica-Bold" -> font_size st = 14 ->
  forall f s x y t,
    In (DrawString f s x y t) (fst (draw_paragraph_lines page_num lh st lines)) ->
    f = "Helvetica-Bold" /\ s = 14.
Proof.
  revert st. induction lines as [|line rest IH]; intros st Hf Hs f s x y t Hin.
  - destruct Hin.
  - simpl in Hin. destruct (Qltb bottom_margin (y_pos st)).
    + destruct (draw_paragraph_lines page_num lh _ rest) as [ops st'] eqn:E.
      simpl in Hin. destruct Hin as [Hin|Hin].
      * injection Hin as <- <- _ _ _. split; assumption.
      * eapply (IH {| font_name := font_name st; font_size := font_size st;
                      y_pos := y_pos st - lh |}); [exact Hf|exact Hs|].
        rewrite E. exact Hin.
    + destruct (draw_paragraph_lines page_num lh _ rest) as [ops st'] eqn:E.
      simpl in Hin. destruct Hin as [Hin|[Hin|Hin]]; [discriminate| |].
      * injection Hin as <- <- _ _ _. split; reflexivity.
      * apply (IH {| font_name := "Helvetica-Bold"; font_size := 14;
                     y_pos := top_margin - 30 |} eq_refl eq_refl f s x y t).
        rewrite E. exact Hin.
Qed.

(** [create_text_only_pdf_clean]: after a page break inside a
    paragraph, [c.setFont(c._fontname, c._fontsize)] re-selects the
    header font just set, so every later line of that paragraph is drawn
    in Helvetica-Bold 14 instead of the paragraph's font. *)
Theorem continued_lines_in_header_font page_num lh st lines pre post f s x y t :
  fst (draw_paragraph_lines page_num lh st lines) = (pre ++ ShowPage :: post)%list ->
  In (DrawString f s x y t) post ->
  f = "Helvetica-Bold" /\ s = 14.
Proof.
  revert st pre. induction lines as [|line rest IH]; intros st pre Hops Hin.
  - simpl in Hops. destruct pre; discriminate.
  - simpl in Hops. destruct (Qltb bottom_margin (y_pos st)).
    + destruct (draw_paragraph_lines page_num lh _ rest) as [ops st'] eqn:E.
      simpl in Hops. destruct pre as [|op pre]; [discriminate|].
      injection Hops as _ Hops.
      eapply (IH _ pre); [|exact Hin]. rewrite E. exact Hops.
    + pose proof (draw_paragraph_lines_bold page_num lh
                    {| font_name := "Helvetica-Bold"; font_size := 14;
                       y_pos := top_margin - 30 |} rest eq_refl eq_refl) as B.
      destruct (draw_paragraph_lines page_num lh _ rest) as [ops st'] eqn:E.
      simpl in Hops, B.
      assert (Hsub : In (DrawString f s x y t)
                       (DrawString "Helvetica-Bold" 14 left_margin top_margin
                          ("Page " ++ str_nat (page_num + 1) ++ " (continued)") :: ops)).
      { destruct pre as [|op pre].
        - injection Hops as Hops. rewrite <- Hops in Hin. exact Hin.
        - injection Hops as _ Hops. right.
          destruct pre as [|op' pre]; [discriminate|].
          injection Hops as _ Hops. rewrite Hops.
          apply in_or_app. right. right. exact Hin. }
      destruct Hsub as [Hh|Hr].
      * injection Hh as <- <- _ _ _. split; reflexivity.
      * exact (B f s x y t Hr).
Qed.

Lemma continued_lines_in_header_font_witness :
  let st := {| font_name := "Helvetica"; font_size := 11; y_pos := 72 |} in
  fst (draw_paragraph_lines 0 14 st ["x"; "y"]) =
    ([] ++ ShowPage ::
        [DrawString "Helvetica-Bold" 14 72 720 "Page 1 (continued)";
         DrawString "Helvetica-Bold" 14 72 690 "y"])%list /\
  In (DrawString "Helvetica-Bold" 14 72 690 "y")
     [DrawString "Helvetica-Bold" 14 72 720 "Page 1 (continued)";
      DrawString "Helvetica-Bold" 14 72 690 "y"] /\
  ("Helvetica-Bold" = "Helvetica-Bold" /\ (14 : Q) = 14).
Proof.
  intro st.
  assert (E : fst (draw_paragraph_lines 0 14 st ["x"; "y"]) =
    ([] ++ ShowPage ::
        [DrawString "Helvetica-Bold" 14 72 720 "Page 1 (continued)";
         DrawString "Helvetica-Bold" 14 72 690 "y"])%list)
    by (vm_compute; reflexivity).
  assert (I : In (DrawString "Helvetica-Bold" 14 72 690 "y")
     [DrawString "Helvetica-Bold" 14 72 720 "Page 1 (continued)";
      DrawString "Helvetica-Bold" 14 72 690 "y"]) by (right; left; reflexivity).
  split; [exact E|]. split; [exact I|].
  exact (continued_lines_in_header_font 0 14 st ["x"; "y"] [] _ _ _ _ _ _ E I).
Defined.

End TextOnlyFacts.
